(** * agentTemplate: the math tool handlers and the tool-calling graph

    A shallow embedding of

    - [backend/mcp_servers/math_tools/server.py]: the seven tool handlers
      ([add], [subtract], [multiply], [divide], [power], [square_root],
      [solve_equation]);
    - [backend/orchestrators/test_agent_orchestrator/state.py] and
      [graph.py]: the tool schemas bound to the model, [format_tool_response],
      the two graph nodes [call_llm] and [call_tool], the router
      [should_call_tool] and the compiled [workflow].

    Python values are modelled as follows.  A [str] is a [string] (the UTF-8
    bytes of the text); an [int] is a [Z]; a [float] is a binary64 value,
    represented by [spec_float] with the IEEE operations of the standard
    library ([prec = 53], [emax = 1024]); a raised exception is the [Raise]
    branch of [outcome].  The services of the Python runtime that have no
    closed arithmetic description ([repr] of a float, [str] of a complex, the
    floating-point cases of [**]) are fields of a [runtime] record that every
    handler receives. *)

From Stdlib Require Import ZArith List String Ascii Bool Lia DecimalString.
From Stdlib Require Import Floats.SpecFloat.
Import ListNotations.

Local Open Scope string_scope.
Local Open Scope Z_scope.

Set Warnings "-register-all".

(** ** Exceptions and outcomes *)

Inductive exn : Type :=
| ValueError (msg : string)
| ZeroDivisionError (msg : string)
| OverflowError (msg : string)
| TypeError (msg : string)
| AttributeError (msg : string)
| IndexError (msg : string)
| KeyError (key_repr : string)
| Exception (msg : string).

(** [str(e)]: the message the exception was built with. *)
Definition str_exn (e : exn) : string :=
  match e with
  | ValueError m | ZeroDivisionError m | OverflowError m | TypeError m
  | AttributeError m | IndexError m | KeyError m | Exception m => m
  end.

Inductive outcome (A : Type) : Type :=
| Return (a : A)
| Raise (e : exn).

Arguments Return {A} a.
Arguments Raise {A} e.

Definition bind {A B : Type} (m : outcome A) (k : A -> outcome B) : outcome B :=
  match m with
  | Return a => k a
  | Raise e => Raise e
  end.

Notation "x <- m ;; k" := (bind m (fun x => k))
  (at level 61, m at next level, right associativity).

(** [try: body  except Exception as e: handler(e)]; every exception of the
    model derives from [Exception]. *)
Definition try_except {A : Type} (body : outcome A) (handler : exn -> outcome A)
  : outcome A :=
  match body with
  | Return a => Return a
  | Raise e => handler e
  end.

(** ** Python strings *)

Module PyStr.

(** [c in s] for a one-character [c]. *)
Fixpoint contains_char (c : ascii) (s : string) : bool :=
  match s with
  | EmptyString => false
  | String d r => Ascii.eqb d c || contains_char c r
  end.

(** [s.replace(c, '')]. *)
Fixpoint remove_char (c : ascii) (s : string) : string :=
  match s with
  | EmptyString => EmptyString
  | String d r => if Ascii.eqb d c then remove_char c r
                  else String d (remove_char c r)
  end.

(** [s.replace(c, d)] for one-character [c] and [d]. *)
Fixpoint replace_char (c d : ascii) (s : string) : string :=
  match s with
  | EmptyString => EmptyString
  | String e r => String (if Ascii.eqb e c then d else e) (replace_char c d r)
  end.

(** [s.split(sep)] for a one-character separator: never the empty list. *)
Fixpoint split (sep : ascii) (s : string) : list string :=
  match s with
  | EmptyString => [EmptyString]
  | String c r =>
      if Ascii.eqb c sep then EmptyString :: split sep r
      else match split sep r with
           | h :: t => String c h :: t
           | [] => [String c EmptyString]
           end
  end.

(** [s.split(sep, 1)]: at most one cut, at the first separator. *)
Fixpoint split1 (sep : ascii) (s : string) : list string :=
  match s with
  | EmptyString => [EmptyString]
  | String c r =>
      if Ascii.eqb c sep then [EmptyString; r]
      else match split1 sep r with
           | h :: t => String c h :: t
           | [] => [String c EmptyString]
           end
  end.

(** [s.count(c)]. *)
Fixpoint count_char (c : ascii) (s : string) : nat :=
  match s with
  | EmptyString => O
  | String d r => if Ascii.eqb d c then S (count_char c r) else count_char c r
  end.

(** The text before the first [c] (all of [s] when it has none). *)
Fixpoint before (c : ascii) (s : string) : string :=
  match s with
  | EmptyString => EmptyString
  | String d r => if Ascii.eqb d c then EmptyString else String d (before c r)
  end.

Fixpoint rev_onto (s acc : string) : string :=
  match s with
  | EmptyString => acc
  | String c r => rev_onto r (String c acc)
  end.

Definition rev (s : string) : string := rev_onto s EmptyString.

(** The white space [float()] skips at both ends of ASCII text: tab, line
    feed, vertical tab, form feed, carriage return and the space.  The
    separators [chr(28)] to [chr(31)], which [str.strip()] removes, are not
    skipped. *)
Definition is_space (c : ascii) : bool :=
  let n := nat_of_ascii c in
  (((9 <=? n) && (n <=? 13)) || (n =? 32))%nat.

Fixpoint lstrip (s : string) : string :=
  match s with
  | String c r => if is_space c then lstrip r else s
  | EmptyString => EmptyString
  end.

Definition strip (s : string) : string := rev (lstrip (rev (lstrip s))).

(** [s.isascii()]: every byte of the text is below 128. *)
Fixpoint is_ascii (s : string) : bool :=
  match s with
  | EmptyString => true
  | String c r => (nat_of_ascii c <? 128)%nat && is_ascii r
  end.

Definition is_upper (c : ascii) : bool :=
  let n := nat_of_ascii c in ((65 <=? n) && (n <=? 90))%nat.

Definition is_lower (c : ascii) : bool :=
  let n := nat_of_ascii c in ((97 <=? n) && (n <=? 122))%nat.

Definition lower_char (c : ascii) : ascii :=
  if is_upper c then ascii_of_nat (nat_of_ascii c + 32) else c.

Definition upper_char (c : ascii) : ascii :=
  if is_lower c then ascii_of_nat (nat_of_ascii c - 32) else c.

Fixpoint lower (s : string) : string :=
  match s with
  | EmptyString => EmptyString
  | String c r => String (lower_char c) (lower r)
  end.

(** [s.capitalize()] on ASCII letters. *)
Definition capitalize (s : string) : string :=
  match s with
  | EmptyString => EmptyString
  | String c r => String (upper_char c) (lower r)
  end.

(** [sep.join(l)]. *)
Fixpoint join (sep : string) (l : list string) : string :=
  match l with
  | [] => EmptyString
  | [s] => s
  | s :: t => s ++ sep ++ join sep t
  end.

Definition hex_digit (n : nat) : ascii :=
  if (n <? 10)%nat then ascii_of_nat (48 + n) else ascii_of_nat (87 + n).

(** One character of [repr(s)] when the delimiter is [q]. *)
Definition repr_char (q c : ascii) : string :=
  let n := nat_of_ascii c in
  if Ascii.eqb c "\" then "\\"
  else if Ascii.eqb c q then String "\" (String q EmptyString)
  else if (n =? 9)%nat then "\t"
  else if (n =? 10)%nat then "\n"
  else if (n =? 13)%nat then "\r"
  else if ((n <? 32) || (n =? 127))%nat
       then String "\" (String "x" (String (hex_digit (n / 16))
              (String (hex_digit (n mod 16)) EmptyString)))
  else String c EmptyString.

Fixpoint repr_body (q : ascii) (s : string) : string :=
  match s with
  | EmptyString => EmptyString
  | String c r => repr_char q c ++ repr_body q r
  end.

(** [repr(s)]: single quotes, unless the text has a single quote and no
    double quote. *)
Definition repr (s : string) : string :=
  let q := if contains_char "'" s && negb (contains_char (ascii_of_nat 34) s)
           then ascii_of_nat 34 else "'"%char in
  String q (repr_body q s ++ String q EmptyString).

(** [s.startswith(c)] for a one-character [c]. *)
Definition starts_with (c : ascii) (s : string) : Prop :=
  exists rest, s = String c rest.

End PyStr.

(** ** Python numbers *)

Module PyNum.

(** A tool argument typed [Union[int, float]]. *)
Inductive number : Type :=
| PyInt (z : Z)
| PyFloat (f : spec_float).

Definition prec : Z := 53.
Definition emax : Z := 1024.

Definition fadd := SFadd prec emax.
Definition fsub := SFsub prec emax.
Definition fmul := SFmul prec emax.
Definition fdiv := SFdiv prec emax.
Definition fsqrt := SFsqrt prec emax.

Definition fzero : spec_float := S754_zero false.

Definition is_infinite (f : spec_float) : bool :=
  match f with S754_infinity _ => true | _ => false end.

(** The nearest binary64 value of an integer (ties to even). *)
Definition float_of_Z (z : Z) : spec_float :=
  binary_normalize prec emax z 0 false.

(** [float(z)] for an [int], as the mixed-type operators apply it. *)
Definition int_to_float (z : Z) : outcome spec_float :=
  let f := float_of_Z z in
  if is_infinite f then Raise (OverflowError "int too large to convert to float")
  else Return f.

Definition to_float (n : number) : outcome spec_float :=
  match n with
  | PyInt z => int_to_float z
  | PyFloat f => Return f
  end.

(** [x == 0]. *)
Definition eq_zero (n : number) : bool :=
  match n with
  | PyInt z => z =? 0
  | PyFloat f => SFeqb f fzero
  end.

(** [x < 0]. *)
Definition lt_zero (n : number) : bool :=
  match n with
  | PyInt z => z <? 0
  | PyFloat f => SFltb f fzero
  end.

(** [a + b], [a - b], [a * b]: exact on two ints, binary64 otherwise. *)
Definition arith (iop : Z -> Z -> Z) (fop : spec_float -> spec_float -> spec_float)
           (a b : number) : outcome number :=
  match a, b with
  | PyInt x, PyInt y => Return (PyInt (iop x y))
  | _, _ =>
      x <- to_float a ;;
      y <- to_float b ;;
      Return (PyFloat (fop x y))
  end.

Definition py_add := arith Z.add fadd.
Definition py_sub := arith Z.sub fsub.
Definition py_mul := arith Z.mul fmul.

(** [x / y] on two floats. *)
Definition float_truediv (x y : spec_float) : outcome spec_float :=
  if SFeqb y fzero then Raise (ZeroDivisionError "float division by zero")
  else Return (fdiv x y).

(** [x / y] on two ints: the correctly rounded quotient. *)
Definition int_truediv (x y : Z) : outcome spec_float :=
  match y with
  | Z0 => Raise (ZeroDivisionError "division by zero")
  | _ =>
      match x with
      | Z0 => Return (S754_zero (y <? 0))
      | _ =>
          let q := fdiv (S754_finite (x <? 0) (Z.to_pos (Z.abs x)) 0)
                        (S754_finite (y <? 0) (Z.to_pos (Z.abs y)) 0) in
          if is_infinite q
          then Raise (OverflowError "integer division result too large for a float")
          else Return q
      end
  end.

(** [a / b]. *)
Definition py_truediv (a b : number) : outcome number :=
  match a, b with
  | PyInt x, PyInt y => q <- int_truediv x y ;; Return (PyFloat q)
  | _, _ =>
      x <- to_float a ;;
      y <- to_float b ;;
      q <- float_truediv x y ;;
      Return (PyFloat q)
  end.

(** [math.sqrt(x)]. *)
Definition math_sqrt (n : number) : outcome number :=
  x <- to_float n ;;
  if SFltb x fzero then Raise (ValueError "math domain error")
  else Return (PyFloat (fsqrt x)).

(** [str(z)] for an [int], as [f"{z}"] prints it.  The text is given for
    every [z]: the interpreter's limit on the digits of a conversion (4300
    by default, beyond which [str] raises [ValueError]) is left out, so what
    the handlers print is that of the code for the integers below it. *)
Definition str_int (z : Z) : string := NilZero.string_of_int (Z.to_int z).

(** *** [float(s)] on ASCII text

    [[
    floatvalue  ::= [sign] (floatnumber | "inf" | "infinity" | "nan")
    floatnumber ::= number [("e" | "E") [sign] digitpart]
    number      ::= [digitpart] "." digitpart | digitpart ["."]
    digitpart   ::= digit (["_"] digit)*
    ]]
    after the white space at both ends is skipped; the value is the decimal
    correctly rounded to binary64.  The grammar is that of ASCII text only:
    [float()] also reads the decimal digits and the blanks of other scripts,
    which are not modelled, so a text with a byte above 127 is outside what
    [py_float] describes. *)

Definition digit_val (c : ascii) : option Z :=
  let n := nat_of_ascii c in
  if ((48 <=? n) && (n <=? 57))%nat then Some (Z.of_nat (n - 48)) else None.

(** The rest of a [digitpart]: [acc] is the value read so far and [n] the
    number of digits read. *)
Fixpoint scan_digits (acc n : Z) (s : string) : Z * Z * string :=
  match s with
  | EmptyString => (acc, n, s)
  | String c r =>
      match digit_val c with
      | Some d => scan_digits (10 * acc + d) (n + 1) r
      | None =>
          if Ascii.eqb c "_" then
            match r with
            | String c' r' =>
                match digit_val c' with
                | Some d => scan_digits (10 * acc + d) (n + 1) r'
                | None => (acc, n, s)
                end
            | EmptyString => (acc, n, s)
            end
          else (acc, n, s)
      end
  end.

Definition scan_digitpart (acc n : Z) (s : string) : option (Z * Z * string) :=
  match s with
  | String c r =>
      match digit_val c with
      | Some d => Some (scan_digits (10 * acc + d) (n + 1) r)
      | None => None
      end
  | EmptyString => None
  end.

Definition scan_sign (s : string) : bool * string :=
  match s with
  | String c r =>
      if Ascii.eqb c "-" then (true, r)
      else if Ascii.eqb c "+" then (false, r)
      else (false, s)
  | EmptyString => (false, s)
  end.

(** [number]: the digits as an integer, the count of fraction digits and
    the unread rest. *)
Definition scan_number (s : string) : option (Z * Z * string) :=
  match scan_digitpart 0 0 s with
  | Some (ip, _, r) =>
      match r with
      | String c r1 =>
          if Ascii.eqb c "." then
            match scan_digitpart ip 0 r1 with
            | Some (m, k, r') => Some (m, k, r')
            | None => Some (ip, 0, r1)
            end
          else Some (ip, 0, r)
      | EmptyString => Some (ip, 0, r)
      end
  | None =>
      match s with
      | String c r => if Ascii.eqb c "." then scan_digitpart 0 0 r else None
      | EmptyString => None
      end
  end.

Definition scan_exponent (s : string) : option Z :=
  match s with
  | EmptyString => Some 0
  | String c r =>
      if Ascii.eqb c "e" || Ascii.eqb c "E" then
        let '(neg, r1) := scan_sign r in
        match scan_digitpart 0 0 r1 with
        | Some (e, _, EmptyString) => Some (if neg then - e else e)
        | _ => None
        end
      else None
  end.

(** [m * 10 ^ e], correctly rounded. *)
Definition decimal_to_float (neg : bool) (m e : Z) : spec_float :=
  match m with
  | Zpos p =>
      if 0 <=? e then binary_round prec emax neg (p * Z.to_pos (10 ^ e)) 0
      else fdiv (S754_finite neg p 0) (S754_finite false (Z.to_pos (10 ^ (- e))) 0)
  | _ => S754_zero neg
  end.

Definition parse_float (s : string) : option spec_float :=
  let '(neg, body) := scan_sign (PyStr.strip s) in
  let word := PyStr.lower body in
  if String.eqb word "inf" || String.eqb word "infinity" then Some (S754_infinity neg)
  else if String.eqb word "nan" then Some S754_nan
  else
    match scan_number body with
    | Some (m, k, r) =>
        match scan_exponent r with
        | Some e => Some (decimal_to_float neg m (e - k))
        | None => None
        end
    | None => None
    end.

(** [float(s)] for a [str]. *)
Definition py_float (s : string) : outcome spec_float :=
  match parse_float s with
  | Some f => Return f
  | None => Raise (ValueError ("could not convert string to float: " ++ PyStr.repr s))
  end.

End PyNum.

(** ** [mcp_servers/math_tools/server.py] *)

Module MathTools.
Import PyStr PyNum.

(** The value of [base ** exponent]: negative bases with fractional
    exponents give a [complex]. *)
Inductive scalar : Type :=
| SNum (n : number)
| SComplex (re im : spec_float).

(** What the fields of a handler's dictionary hold. *)
Inductive value : Type :=
| VScalar (r : scalar)
| VStr (s : string)
| VList (l : list string).

(** A dictionary literal, in insertion order; the keys of each literal of
    this file are distinct. *)
Definition dict : Type := list (string * value).

(** [d.get(k)]. *)
Fixpoint dict_get (k : string) (d : dict) : option value :=
  match d with
  | [] => None
  | (k', v) :: r => if String.eqb k' k then Some v else dict_get k r
  end.

(** [k in d]. *)
Definition dict_mem (k : string) (d : dict) : bool :=
  match dict_get k d with Some _ => true | None => false end.

(** The Python runtime services the handlers use without this file giving
    them a closed form. *)
Record runtime : Type := {
  float_repr : spec_float -> string;
  complex_str : spec_float -> spec_float -> string;
  float_pow : spec_float -> spec_float -> outcome scalar
}.

Section Handlers.
Variable rt : runtime.

(** [f"{n}"] for a number. *)
Definition fmt (n : number) : string :=
  match n with
  | PyInt z => str_int z
  | PyFloat f => float_repr rt f
  end.

Definition fmt_scalar (r : scalar) : string :=
  match r with
  | SNum n => fmt n
  | SComplex re im => complex_str rt re im
  end.

(** [base ** exponent]. *)
Definition py_pow (base exponent : number) : outcome scalar :=
  match base, exponent with
  | PyInt b, PyInt e =>
      if 0 <=? e then Return (SNum (PyInt (b ^ e)))
      else x <- int_to_float b ;; y <- int_to_float e ;; float_pow rt x y
  | _, _ => x <- to_float base ;; y <- to_float exponent ;; float_pow rt x y
  end.

Definition add (a b : number) : outcome dict :=
  result <- py_add a b ;;
  Return
    [ ("operation", VStr "addition");
      ("expression", VStr (fmt a ++ " + " ++ fmt b));
      ("result", VScalar (SNum result));
      ("steps", VList
         [ "Step 1: Add " ++ fmt a ++ " and " ++ fmt b;
           fmt a ++ " + " ++ fmt b ++ " = " ++ fmt result;
           "Final result: " ++ fmt result ]) ].

Definition subtract (a b : number) : outcome dict :=
  result <- py_sub a b ;;
  Return
    [ ("operation", VStr "subtraction");
      ("expression", VStr (fmt a ++ " - " ++ fmt b));
      ("result", VScalar (SNum result));
      ("steps", VList
         [ "Step 1: Subtract " ++ fmt b ++ " from " ++ fmt a;
           fmt a ++ " - " ++ fmt b ++ " = " ++ fmt result;
           "Final result: " ++ fmt result ]) ].

Definition multiply (a b : number) : outcome dict :=
  result <- py_mul a b ;;
  Return
    [ ("operation", VStr "multiplication");
      ("expression", VStr (fmt a ++ " × " ++ fmt b));
      ("result", VScalar (SNum result));
      ("steps", VList
         [ "Step 1: Multiply " ++ fmt a ++ " by " ++ fmt b;
           fmt a ++ " × " ++ fmt b ++ " = " ++ fmt result;
           "Final result: " ++ fmt result ]) ].

Definition divide (a b : number) : outcome dict :=
  if eq_zero b then Raise (ValueError "Cannot divide by zero")
  else
    result <- py_truediv a b ;;
    Return
      [ ("operation", VStr "division");
        ("expression", VStr (fmt a ++ " ÷ " ++ fmt b));
        ("result", VScalar (SNum result));
        ("steps", VList
           [ "Step 1: Divide " ++ fmt a ++ " by " ++ fmt b;
             fmt a ++ " ÷ " ++ fmt b ++ " = " ++ fmt result;
             "Final result: " ++ fmt result ]) ].

Definition power (base exponent : number) : outcome dict :=
  result <- py_pow base exponent ;;
  Return
    [ ("operation", VStr "exponentiation");
      ("expression", VStr (fmt base ++ "^" ++ fmt exponent));
      ("result", VScalar result);
      ("steps", VList
         [ "Step 1: Raise " ++ fmt base ++ " to the power of " ++ fmt exponent;
           fmt base ++ "^" ++ fmt exponent ++ " = " ++ fmt_scalar result;
           "Final result: " ++ fmt_scalar result ]) ].

Definition square_root (number : number) : outcome dict :=
  if lt_zero number
  then Raise (ValueError "Cannot calculate square root of a negative number")
  else
    result <- math_sqrt number ;;
    Return
      [ ("operation", VStr "square_root");
        ("expression", VStr ("√" ++ fmt number));
        ("result", VScalar (SNum result));
        ("steps", VList
           [ "Step 1: Find the square root of " ++ fmt number;
             "√" ++ fmt number ++ " = " ++ fmt result;
             "Final result: " ++ fmt result ]) ].

(** The literal [1.0]. *)
Definition one : spec_float := float_of_Z 1.

(** The body of the [try] block of [solve_equation]; [lhs] and [rhs] are
    the source's [left] and [right]. *)
Definition solve_equation_try (equation : string) : outcome dict :=
  let parts := split "=" (remove_char " " equation) in
  match parts with
  | [lhs; rhs] =>
      if negb (contains_char "x" lhs)
      then Raise (ValueError "Equation must contain 'x' on the left side")
      else if contains_char "+" lhs then
        match split1 "+" lhs with
        | [a_part; b_part] =>
            a <- (if contains_char "x" a_part
                  then py_float (remove_char "x" a_part)
                  else Return one) ;;
            b <- py_float b_part ;;
            c <- py_float rhs ;;
            x <- float_truediv (fsub c b) a ;;
            let f := float_repr rt in
            Return
              [ ("operation", VStr "solve_equation");
                ("equation", VStr equation);
                ("result", VScalar (SNum (PyFloat x)));
                ("steps", VList
                   [ "Step 1: Start with the equation: " ++ equation;
                     "Step 2: Isolate the variable x";
                     lhs ++ " = " ++ rhs;
                     if contains_char "+" lhs
                     then replace_char "+" "-" lhs ++ " = " ++ rhs ++ " - " ++ f b
                     else "";
                     if contains_char "+" lhs
                     then f a ++ "x = " ++ f (fsub c b)
                     else "";
                     if contains_char "+" lhs
                     then "x = (" ++ f c ++ " - " ++ f b ++ ") / " ++ f a
                     else "";
                     "x = " ++ f x;
                     "Final solution: x = " ++ f x ]) ]
        | _ => Raise (ValueError "not enough values to unpack (expected 2, got 1)")
        end
      else Raise (ValueError "Unsupported equation format")
  | _ => Raise (ValueError "Equation must contain exactly one '='")
  end.

(** The dictionary of the [except Exception as e] block. *)
Definition solve_equation_error (equation : string) (e : exn) : dict :=
  [ ("operation", VStr "solve_equation");
    ("equation", VStr equation);
    ("error", VStr (str_exn e));
    ("message", VStr "Failed to solve equation. Make sure it's in a supported format like '2x + 3 = 7'.") ].

Definition solve_equation (equation : string) : outcome dict :=
  try_except (solve_equation_try equation)
             (fun e => Return (solve_equation_error equation e)).

(** A request to the tool server: one of the seven registered tools with
    arguments of the declared types. *)
Inductive request : Type :=
| req_add (a b : number)
| req_subtract (a b : number)
| req_multiply (a b : number)
| req_divide (a b : number)
| req_power (base exponent : number)
| req_square_root (number : number)
| req_solve_equation (equation : string).

(** What [mcp_math_server] runs for a request. *)
Definition mcp_math_server (r : request) : outcome dict :=
  match r with
  | req_add a b => add a b
  | req_subtract a b => subtract a b
  | req_multiply a b => multiply a b
  | req_divide a b => divide a b
  | req_power b e => power b e
  | req_square_root n => square_root n
  | req_solve_equation eq => solve_equation eq
  end.

End Handlers.

(** [steps[-1]], when the trace is not empty. *)
Definition last_step (l : list string) : option string :=
  match l with
  | [] => None
  | _ => Some (List.last l "")
  end.

(** The line that closes the trace of a request whose result is [result]. *)
Definition final_line (rt : runtime) (r : request) (result : scalar) : string :=
  match r with
  | req_solve_equation _ => "Final solution: x = " ++ fmt_scalar rt result
  | _ => "Final result: " ++ fmt_scalar rt result
  end.

(** The equation shapes outside ['ax + b = c']: not exactly one ['='], no
    ['x'] before the ['='], or no ['+'] before the ['=']. *)
Definition unsupported_shape (equation : string) : Prop :=
  count_char "=" equation <> 1%nat \/
  contains_char "x" (before "=" equation) = false \/
  contains_char "+" (before "=" equation) = false.

(** What the parse of [solve_equation] accepts, read off its splits: once
    the spaces are removed the text is [a_part + b_part = c_part] with one
    ['='], where [a_part] holds an ['x'] and stops at the first ['+'], and
    [a_part] without its ['x']s, [b_part] and [c_part] are read by
    [float()] as [a], [b] and [c].  This is wider than ['<a>x + <b> = <c>']:
    the ['x'] may stand anywhere in [a_part] (['x2'], ['1x0']), and
    [b_part] may hold a sign or further ['+'] that [float()] takes. *)
Definition accepted_form (equation : string) (a b c : spec_float) : Prop :=
  exists a_part b_part c_part,
    remove_char " " equation = a_part ++ String "+" (b_part ++ String "=" c_part) /\
    contains_char "x" a_part = true /\
    contains_char "+" a_part = false /\
    contains_char "=" a_part = false /\
    contains_char "=" b_part = false /\
    contains_char "=" c_part = false /\
    py_float (remove_char "x" a_part) = Return a /\
    py_float b_part = Return b /\
    py_float c_part = Return c.

(** The text of the ["message"] field of the error dictionary. *)
Definition failure_message : string :=
  "Failed to solve equation. Make sure it's in a supported format like '2x + 3 = 7'.".

(** The messages of the three [ValueError]s [solve_equation] raises by
    itself. *)
Definition shape_messages : list string :=
  [ "Equation must contain exactly one '='";
    "Equation must contain 'x' on the left side";
    "Unsupported equation format" ].

(** A runtime that prints every float as [<float>] and whose [pow]
    overflows: it runs the handlers on the inputs whose outcome does not
    depend on these services. *)
Definition bare_runtime : runtime :=
  {| float_repr := fun _ => "<float>";
     complex_str := fun _ _ => "<complex>";
     float_pow := fun _ _ => Raise (OverflowError "(34, 'Numerical result out of range')") |}.

End MathTools.

(** ** [orchestrators/test_agent_orchestrator/graph.py] and [state.py] *)

Module Graph.
Import PyNum.

(** *** Tool schemas and the module's globals *)

(** One entry of ["properties"]. *)
Record property : Type := {
  prop_name : string;
  prop_type : string;
  prop_description : string
}.

(** One element of a [llm_tools] list: [{"type": ..., "function": {"name":
    ..., "description": ..., "parameters": {"type": ..., "properties": ...,
    "required": ...}}}]. *)
Record tool_schema : Type := {
  schema_type : string;
  fn_name : string;
  fn_description : string;
  parameters_type : string;
  properties : list property;
  required : list string
}.

Definition function_schema (name description : string)
           (props : list property) (req : list string) : tool_schema :=
  {| schema_type := "function"; fn_name := name; fn_description := description;
     parameters_type := "object"; properties := props; required := req |}.

Definition prop (name type description : string) : property :=
  {| prop_name := name; prop_type := type; prop_description := description |}.

(** The list literal assigned to [llm_tools] at line 54. *)
Definition llm_tools_line_54 : list tool_schema :=
  [ function_schema "add" "Adds two numbers and returns the result with steps."
      [ prop "a" "number" "The first number";
        prop "b" "number" "The second number" ]
      [ "a"; "b" ];
    function_schema "subtract"
      "Subtracts the second number from the first and returns the result with steps."
      [ prop "a" "number" "The first number";
        prop "b" "number" "The number to subtract" ]
      [ "a"; "b" ];
    function_schema "multiply"
      "Multiplies two numbers and returns the result with steps."
      [ prop "a" "number" "The first number";
        prop "b" "number" "The second number" ]
      [ "a"; "b" ];
    function_schema "divide"
      "Divides the first number by the second and returns the result with steps."
      [ prop "a" "number" "The numerator";
        prop "b" "number" "The denominator (cannot be zero)" ]
      [ "a"; "b" ];
    function_schema "power"
      "Raises a number to a power and returns the result with steps."
      [ prop "base" "number" "The base number";
        prop "exponent" "number" "The exponent" ]
      [ "base"; "exponent" ];
    function_schema "square_root"
      "Calculates the square root of a number and returns the result with steps."
      [ prop "number" "number"
          "The number to find the square root of (must be non-negative)" ]
      [ "number" ];
    function_schema "solve_equation"
      "Solves a simple linear equation in the form 'ax + b = c' and returns the solution with steps."
      [ prop "equation" "string" "The equation to solve, e.g., '2x + 3 = 7'" ]
      [ "equation" ] ].

(** The list literal assigned to [llm_tools] at line 162. *)
Definition llm_tools_line_162 : list tool_schema :=
  [ function_schema "add_numbers" "Adds two integers and returns the result."
      [ prop "a" "integer" "The first number";
        prop "b" "integer" "The second number" ]
      [ "a"; "b" ] ].

(** What [llm.bind_tools(tools=..., tool_choice=...)] returns: the model
    together with the schemas it will be offered. *)
Record bound_model : Type := {
  bound_tools : list tool_schema;
  tool_choice : string
}.

Definition bind_tools (tools : list tool_schema) (choice : string) : bound_model :=
  {| bound_tools := tools; tool_choice := choice |}.

(** The two module globals the tool set lives in. *)
Record globals : Type := {
  g_llm_tools : list tool_schema;
  g_llm_with_tools : option bound_model
}.

(** The module-level statements that assign them. *)
Inductive statement : Type :=
| assign_llm_tools (literal : list tool_schema)
    (* llm_tools = [...] *)
| assign_llm_with_tools
    (* llm_with_tools = llm.bind_tools(tools=llm_tools, tool_choice="auto") *).

Definition exec (g : globals) (s : statement) : globals :=
  match s with
  | assign_llm_tools literal =>
      {| g_llm_tools := literal; g_llm_with_tools := g_llm_with_tools g |}
  | assign_llm_with_tools =>
      {| g_llm_tools := g_llm_tools g;
         g_llm_with_tools := Some (bind_tools (g_llm_tools g) "auto") |}
  end.

(** Lines 54 to 179, in program order. *)
Definition module_body : list statement :=
  [ assign_llm_tools llm_tools_line_54;     (* line 54 *)
    assign_llm_with_tools;                  (* line 161 *)
    assign_llm_tools llm_tools_line_162;    (* line 162 *)
    assign_llm_with_tools ].                (* line 179 *)

Definition module_globals : globals :=
  fold_left exec module_body {| g_llm_tools := []; g_llm_with_tools := None |}.

(** The globals as the node functions find them once the module is
    imported. *)
Definition llm_tools : list tool_schema := g_llm_tools module_globals.

Definition llm_with_tools : bound_model :=
  match g_llm_with_tools module_globals with
  | Some m => m
  | None => bind_tools [] "auto"
  end.

Definition MATH_SYSTEM_PROMPT : string :=
"You are a helpful math tutor that helps students solve mathematical problems step by step.
You have access to various math tools that can help with calculations. Here's how to use them:

1. For basic arithmetic (addition, subtraction, multiplication, division):
   - Use the appropriate tool (add, subtract, multiply, divide)
   
2. For exponents and roots:
   - Use 'power' for exponents (e.g., 2^3)
   - Use 'square_root' for square roots (e.g., √9)
   
3. For solving equations:
   - Use 'solve_equation' for linear equations (e.g., '2x + 3 = 7')

Always break down complex problems into smaller, manageable steps. Show your work and explain each step clearly.
When using tools, make sure to provide all required parameters with the correct types.
".

(** The tool names the system prompt tells the model it has. *)
Definition prompt_tool_names : list string :=
  [ "add"; "subtract"; "multiply"; "divide"; "power"; "square_root";
    "solve_equation" ].

(** *** Messages *)

(** A decoded JSON document, as [json.loads] returns it. *)
Inductive json : Type :=
| JNull
| JBool (b : bool)
| JNum (n : number)
| JStr (s : string)
| JArr (l : list json)
| JObj (d : list (string * json)).

(** A tool call of an assistant message: the dictionary with keys ["name"],
    ["args"] and ["id"]; [tc_id = None] is a dictionary without the ["id"]
    key.  The identifier of a call is a string: a dictionary that maps
    ["id"] to [None], for which building the [ToolMessage] fails, is not a
    value of this type. *)
Record ToolCall : Type := {
  tc_name : string;
  tc_args : json;
  tc_id : option string
}.

Record AIMessage : Type := {
  ai_content : string;
  tool_calls : list ToolCall
}.

Inductive message : Type :=
| HumanMessage (content : string)
| SystemMessage (content : string)
| AI (m : AIMessage)
| ToolMessage (content : string) (tool_call_id : string).

(** [TestAgentState]: the one channel ["messages"], merged by
    [lambda x, y: x + y]. *)
Definition TestAgentState : Type := list message.

Definition reducer (x y : list message) : list message := x ++ y.

(** [isinstance(m, SystemMessage)]. *)
Definition is_system (m : message) : bool :=
  match m with SystemMessage _ => true | _ => false end.

(** [isinstance(m, ToolMessage)]. *)
Definition is_tool (m : message) : bool :=
  match m with ToolMessage _ _ => true | _ => false end.

(** [l[-1]]. *)
Definition last_item {A : Type} (l : list A) : outcome A :=
  match List.rev l with
  | x :: _ => Return x
  | [] => Raise (IndexError "list index out of range")
  end.

(** The external collaborators of the graph. *)
Record collaborators : Type := {
  (* llm_with_tools.invoke(messages) *)
  llm_invoke : bound_model -> list message -> outcome AIMessage;
  (* mcp_client.call_tool(name, args).text *)
  mcp_call_tool : string -> json -> outcome string;
  (* json.loads(text); None stands for json.JSONDecodeError *)
  json_loads : string -> option json;
  (* str() of a float, a list or a dict *)
  str_other : json -> string
}.

(** *** [format_tool_response] *)

Definition newline : string := String (ascii_of_nat 10) EmptyString.

(** [type(v).__name__]. *)
Definition type_name (v : json) : string :=
  match v with
  | JNull => "NoneType"
  | JBool _ => "bool"
  | JNum (PyInt _) => "int"
  | JNum (PyFloat _) => "float"
  | JStr _ => "str"
  | JArr _ => "list"
  | JObj _ => "dict"
  end.

(** [bool(v)]. *)
Definition truthy (v : json) : bool :=
  match v with
  | JNull => false
  | JBool b => b
  | JNum n => negb (eq_zero n)
  | JStr s => negb (String.eqb s "")
  | JArr l => match l with [] => false | _ => true end
  | JObj d => match d with [] => false | _ => true end
  end.

Fixpoint lookup (k : string) (d : list (string * json)) : option json :=
  match d with
  | [] => None
  | (k', v) :: r => if String.eqb k' k then Some v else lookup k r
  end.

(** [k in d] and [d.get(k, default)] on a dictionary. *)
Definition mem (k : string) (d : list (string * json)) : bool :=
  match lookup k d with Some _ => true | None => false end.

Definition get (k : string) (default : json) (d : list (string * json)) : json :=
  match lookup k d with Some v => v | None => default end.

(** [iter(v)]: the elements of a list, the characters of a string (one
    byte each on ASCII text), the keys of a dictionary. *)
Definition iterate (v : json) : outcome (list json) :=
  match v with
  | JArr l => Return l
  | JStr s => Return (map (fun c => JStr (String c EmptyString)) (list_ascii_of_string s))
  | JObj d => Return (map (fun kv => JStr (fst kv)) d)
  | _ => Raise (TypeError ("'" ++ type_name v ++ "' object is not iterable"))
  end.

(** [result is not None and result != ""]. *)
Definition shows_result (v : json) : bool :=
  match v with
  | JNull => false
  | JStr s => negb (String.eqb s "")
  | _ => true
  end.

Section Nodes.
Variable C : collaborators.

(** [f"{v}"]. *)
Definition py_str (v : json) : string :=
  match v with
  | JStr s => s
  | JNull => "None"
  | JBool true => "True"
  | JBool false => "False"
  | JNum (PyInt z) => str_int z
  | _ => str_other C v
  end.

Definition format_tool_response (tool_name : string) (tool_result : json)
  : outcome string :=
  match tool_result with
  | JObj d =>
      if mem "error" d
      then Return ("Error in " ++ tool_name ++ ": "
                     ++ py_str (get "message" (JStr "Unknown error") d))
      else
        let operation := get "operation" (JStr "calculation") d in
        let expression := get "expression" (JStr "") d in
        let result := get "result" (JStr "") d in
        let steps := get "steps" (JArr []) d in
        heading <- match operation with
                   | JStr s => Return (PyStr.capitalize s)
                   | _ => Raise (AttributeError
                            ("'" ++ type_name operation
                                 ++ "' object has no attribute 'capitalize'"))
                   end ;;
        let response := [ "## " ++ heading ++ ": " ++ py_str expression ] in
        response <- (if truthy steps
                     then items <- iterate steps ;;
                          Return (response ++ [ "### Steps:" ]
                                    ++ map (fun step => ("- " ++ py_str step)%string)
                                           (filter truthy items))%list
                     else Return response) ;;
        let response := if shows_result result
                        then (response ++ [ (newline ++ "**Final Result:** " ++ py_str result)%string ])%list
                        else response in
        Return (PyStr.join newline response)
  | JStr _ | JArr _ =>
      (* whatever ["error" in tool_result] gives, the next statement is
         [tool_result.get(...)] *)
      Raise (AttributeError ("'" ++ type_name tool_result
                                 ++ "' object has no attribute 'get'"))
  | _ =>
      Raise (TypeError ("argument of type '" ++ type_name tool_result
                            ++ "' is not iterable"))
  end.

(** *** [call_llm] *)

(** The local [messages] that [call_llm] hands to the model. *)
Definition call_llm_messages (state : TestAgentState) : list message :=
  if negb (existsb is_system state)
  then ([ SystemMessage MATH_SYSTEM_PROMPT ] ++ state)%list
  else state.

(** The state update [{"messages": [response]}]. *)
Definition call_llm (state : TestAgentState) : outcome (list message) :=
  response <- llm_invoke C llm_with_tools (call_llm_messages state) ;;
  Return [ AI response ].

(** *** [call_tool] *)

(** [tool_call["id"]] and [tool_call.get("id", default)]. *)
Definition getitem_id (tool_call : ToolCall) : outcome string :=
  match tc_id tool_call with
  | Some i => Return i
  | None => Raise (KeyError "'id'")
  end.

Definition get_id (tool_call : ToolCall) (default : string) : string :=
  match tc_id tool_call with
  | Some i => i
  | None => default
  end.

(** The variables of the [for] loop: the list [tool_messages], and the
    transport calls made so far, in the order they were made. *)
Record loop_state : Type := {
  tool_messages : list message;
  invoked : list (string * json)
}.

(** The outer [try] block of one iteration: the new [tool_messages], or
    the exception that left the block. *)
Definition call_tool_try (tool_messages : list message) (tool_call : ToolCall)
  : outcome (list message) :=
  let tool_name := tc_name tool_call in
  let tool_args := tc_args tool_call in
  result_text <- mcp_call_tool C ("math_tools." ++ tool_name) tool_args ;;
  match json_loads C result_text with
  | Some tool_result =>
      formatted_response <- format_tool_response tool_name tool_result ;;
      id <- getitem_id tool_call ;;
      Return (tool_messages ++ [ ToolMessage formatted_response id ])%list
  | None =>
      (* except json.JSONDecodeError *)
      id <- getitem_id tool_call ;;
      Return (tool_messages
                ++ [ ToolMessage ("Tool response could not be parsed: " ++ result_text)%string id ])%list
  end.

(** One iteration of [for tool_call in ...]. *)
Definition call_tool_iteration (st : loop_state) (tool_call : ToolCall)
  : loop_state :=
  let tool_name := tc_name tool_call in
  let tool_args := tc_args tool_call in
  {| tool_messages :=
       match call_tool_try (tool_messages st) tool_call with
       | Return l => l
       | Raise e =>
           (* except Exception as e *)
           let error_msg := "Error calling tool " ++ tool_name ++ ": " ++ str_exn e in
           (tool_messages st ++ [ ToolMessage error_msg (get_id tool_call "unknown") ])%list
       end;
     invoked := (invoked st ++ [ (("math_tools." ++ tool_name)%string, tool_args) ])%list |}.

Definition call_tool_loop (calls : list ToolCall) : loop_state :=
  fold_left call_tool_iteration calls {| tool_messages := []; invoked := [] |}.

(** [getattr(ai_message, "tool_calls", [])]. *)
Definition getattr_tool_calls (m : message) : list ToolCall :=
  match m with
  | AI a => tool_calls a
  | _ => []
  end.

(** The state update [{"messages": tool_messages}]. *)
Definition call_tool (state : TestAgentState) : outcome (list message) :=
  ai_message <- last_item state ;;
  Return (tool_messages (call_tool_loop (getattr_tool_calls ai_message))).

(** *** [should_call_tool] and the graph *)

Inductive route : Type :=
| route_call_tool   (* "call_tool" *)
| route_call_llm    (* "call_llm" *)
| route_END.        (* END *)

Definition should_call_tool (state : TestAgentState) : outcome route :=
  last_message <- last_item state ;;
  match last_message with
  | AI a =>
      match tool_calls a with
      | _ :: _ => Return route_call_tool
      | [] => Return route_END
      end
  | ToolMessage _ _ => Return route_call_llm
  | _ => Return route_END
  end.

Inductive node : Type :=
| START
| call_llm_node
| call_tool_node
| END.

(** The mapping given to [add_conditional_edges]; it has no entry for
    ["call_llm"]. *)
Definition path_map (r : route) : outcome node :=
  match r with
  | route_call_tool => Return call_tool_node
  | route_END => Return END
  | route_call_llm => Raise (KeyError "'call_llm'")
  end.

(** The function registered for a node by [add_node]. *)
Definition node_function (n : node) (state : TestAgentState)
  : outcome (list message) :=
  match n with
  | call_llm_node => call_llm state
  | call_tool_node => call_tool state
  | START | END => Return []
  end.

(** The edges of [workflow]. *)
Definition successor (n : node) (state : TestAgentState) : outcome node :=
  match n with
  | START => Return call_llm_node
  | call_llm_node => r <- should_call_tool state ;; path_map r
  | call_tool_node => Return call_llm_node
  | END => Return END
  end.

(** One step of the compiled graph: run the node, merge its update with
    the reducer, follow the edge. *)
Definition workflow (cfg : node * TestAgentState)
  : outcome (node * TestAgentState) :=
  let '(n, state) := cfg in
  update <- node_function n state ;;
  let state' := reducer state update in
  n' <- successor n state' ;;
  Return (n', state').

(** [test_agent_graph]: steps from [cfg] until [END], at most
    [recursion_limit] of them. *)
Fixpoint test_agent_graph (recursion_limit : nat) (cfg : node * TestAgentState)
  : outcome (node * TestAgentState) :=
  match fst cfg, recursion_limit with
  | END, _ => Return cfg
  | _, O => Raise (Exception "Recursion limit reached without hitting a stop condition")
  | _, S limit => cfg' <- workflow cfg ;; test_agent_graph limit cfg'
  end.

(** The configurations a run started on [init] goes through. *)
Inductive reachable (init : TestAgentState) : node * TestAgentState -> Prop :=
| reachable_start : reachable init (START, init)
| reachable_step cfg cfg' :
    reachable init cfg -> workflow cfg = Return cfg' -> reachable init cfg'.

End Nodes.

Definition no_system_message (state : TestAgentState) : Prop :=
  Forall (fun m => is_system m = false) state.

(** A state that ends with an assistant message without tool calls. *)
Definition ends_with_final_answer (state : TestAgentState) : Prop :=
  exists prefix response,
    state = (prefix ++ [AI response])%list /\ tool_calls response = [].

(** The [tool_call_id] of a tool message. *)
Definition correlation_id (m : message) : option string :=
  match m with
  | ToolMessage _ i => Some i
  | _ => None
  end.

Definition content_of (m : message) : string :=
  match m with
  | HumanMessage c | SystemMessage c | ToolMessage c _ => c
  | AI a => ai_content a
  end.

(** The transport call an iteration makes for a tool call. *)
Definition transport_call (tool_call : ToolCall) : string * json :=
  (("math_tools." ++ tc_name tool_call)%string, tc_args tool_call).

(** The text of the [except Exception] branch. *)
Definition error_msg (tool_name : string) (e : exn) : string :=
  "Error calling tool " ++ tool_name ++ ": " ++ str_exn e.

(** The content of the message one iteration appends, path by path. *)
Definition reply_content (C : collaborators) (tool_call : ToolCall) : string :=
  let tool_name := tc_name tool_call in
  match mcp_call_tool C ("math_tools." ++ tool_name) (tc_args tool_call) with
  | Raise e => error_msg tool_name e
  | Return result_text =>
      match json_loads C result_text, tc_id tool_call with
      | Some tool_result, Some _ =>
          match format_tool_response C tool_name tool_result with
          | Return formatted_response => formatted_response
          | Raise e => error_msg tool_name e
          end
      | Some tool_result, None =>
          match format_tool_response C tool_name tool_result with
          | Return _ => error_msg tool_name (KeyError "'id'")
          | Raise e => error_msg tool_name e
          end
      | None, Some _ => "Tool response could not be parsed: " ++ result_text
      | None, None => error_msg tool_name (KeyError "'id'")
      end
  end.

Definition reply (C : collaborators) (tool_call : ToolCall) : message :=
  ToolMessage (reply_content C tool_call) (get_id tool_call "unknown").

(** *** A sample turn

    A transport on which no tool is registered, so that every call fails
    the server's lookup; a model that answers at once without asking for a
    tool; a question; and an assistant message that asks for a tool the
    server does not have. *)

Definition final_answer : AIMessage :=
  {| ai_content := "4"; tool_calls := [] |}.

Definition unregistered : collaborators :=
  {| llm_invoke := fun _ _ => Return final_answer;
     mcp_call_tool := fun name _ => Raise (Exception ("Unknown tool: " ++ name));
     json_loads := fun _ => None;
     str_other := fun _ => "" |}.

Definition question : TestAgentState := [ HumanMessage "What is 2 + 2?" ].

Definition cube_call : ToolCall :=
  {| tc_name := "cube";
     tc_args := JObj [ ("a", JNum (PyInt 3)) ];
     tc_id := Some "call_1" |}.

Definition cube_request : AIMessage :=
  {| ai_content := ""; tool_calls := [ cube_call ] |}.

End Graph.

(** ** From the handlers to the graph

    The graph reads a tool result with [json.loads(result.text)], where the
    text is the JSON encoding of the dictionary the handler returned.  A
    [str] decodes to a [str], a list of [str] to a list, an [int] or a
    [float] to the same number; a [complex] has no JSON encoding. *)

Module Transport.
Import MathTools Graph.

Definition value_json (v : value) : option json :=
  match v with
  | VStr s => Some (JStr s)
  | VList l => Some (JArr (map JStr l))
  | VScalar (SNum n) => Some (JNum n)
  | VScalar (SComplex _ _) => None
  end.

Fixpoint fields_json (d : dict) : option (list (string * json)) :=
  match d with
  | [] => Some []
  | (k, v) :: r =>
      match value_json v, fields_json r with
      | Some j, Some r' => Some ((k, j) :: r')
      | _, _ => None
      end
  end.

(** [json.loads(json.dumps(d))], when [d] can be encoded. *)
Definition as_json (d : dict) : option json :=
  match fields_json d with
  | Some fields => Some (JObj fields)
  | None => None
  end.

(** The text [format_tool_response] builds from a heading, the steps it
    lists and the result. *)
Definition presentation (heading : string) (steps : list string) (result : string)
  : string :=
  PyStr.join newline
    ((heading :: "### Steps:" :: map (fun step => ("- " ++ step)%string) steps)
       ++ [ (newline ++ "**Final Result:** " ++ result)%string ])%list.

End Transport.

(** ** The requests by kind *)

Module Requests.
Import MathTools.

(** The six handlers that compute with numbers. *)
Definition is_arithmetic (r : request) : bool :=
  match r with
  | req_solve_equation _ => false
  | _ => true
  end.

(** The ["operation"] label each handler writes. *)
Definition operation_label (r : request) : string :=
  match r with
  | req_add _ _ => "addition"
  | req_subtract _ _ => "subtraction"
  | req_multiply _ _ => "multiplication"
  | req_divide _ _ => "division"
  | req_power _ _ => "exponentiation"
  | req_square_root _ => "square_root"
  | req_solve_equation _ => "solve_equation"
  end.

End Requests.

(** ** The shape of a conversation *)

Module Conversation.
Import Graph.

(** Completed rounds: assistant messages with at least one tool call, each
    followed by the replies to its calls, in the order of the calls. *)
Inductive rounds (C : collaborators) : list message -> Prop :=
| rounds_nil : rounds C []
| rounds_snoc l a :
    rounds C l ->
    tool_calls a <> [] ->
    rounds C (l ++ [AI a] ++ map (reply C) (tool_calls a))%list.

(** What a run has appended to its initial state when it stands at a node. *)
Definition appended (C : collaborators) (n : node) (suffix : list message) : Prop :=
  match n with
  | START => suffix = []
  | call_llm_node => rounds C suffix
  | call_tool_node =>
      exists l a, rounds C l /\ tool_calls a <> [] /\ suffix = (l ++ [AI a])%list
  | END =>
      exists l a, rounds C l /\ tool_calls a = [] /\ suffix = (l ++ [AI a])%list
  end.

(** [isinstance(m, AIMessage)]. *)
Definition is_ai (m : message) : bool :=
  match m with AI _ => true | _ => false end.

(** Whether the dictionary of a tool call has its ["id"]. *)
Definition has_id (tool_call : ToolCall) : bool :=
  match tc_id tool_call with Some _ => true | None => false end.

(** [isinstance(v, dict)], [isinstance(v, str)], and whether [iter(v)]
    is defined. *)
Definition is_object (v : json) : bool :=
  match v with JObj _ => true | _ => false end.

Definition is_str (v : json) : bool :=
  match v with JStr _ => true | _ => false end.

Definition is_iterable (v : json) : bool :=
  match v with JArr _ | JStr _ | JObj _ => true | _ => false end.

(** A server for the examples: [add] answers the empty object, [subtract]
    a bare number, [multiply] a text that is no JSON, and no other tool is
    known. *)
Definition sample_server : collaborators :=
  {| llm_invoke := fun _ _ => Return final_answer;
     mcp_call_tool := fun name _ =>
       if String.eqb name "math_tools.add" then Return "{}"
       else if String.eqb name "math_tools.subtract" then Return "5"
       else if String.eqb name "math_tools.multiply" then Return "out of service"
       else Raise (Exception ("Unknown tool: " ++ name));
     json_loads := fun text =>
       if String.eqb text "{}" then Some (JObj [])
       else if String.eqb text "5" then Some (JNum (PyNum.PyInt 5))
       else None;
     str_other := fun _ => "" |}.

Definition sample_call (name : string) (id : option string) : ToolCall :=
  {| tc_name := name; tc_args := JObj []; tc_id := id |}.

Definition sample_request (name : string) (id : option string) : AIMessage :=
  {| ai_content := ""; tool_calls := [ sample_call name id ] |}.

End Conversation.

(** ** [main_gateway.py]: [find_available_port] *)

Module Gateway.
Import PyNum.

(** What the [try] block of one attempt does with a port: the socket is
    bound, [OSError] is raised, or another exception is raised (which the
    [except OSError] clause does not catch). *)
Inductive attempt : Type :=
| bound
| os_error
| other_error (e : exn).

(** How the [for] loop ends. *)
Inductive loop_result : Type :=
| returned (port : Z)
| raised (e : exn)
| exhausted.

(** [for _ in range(n)] from [port]. *)
Fixpoint try_ports (bind : Z -> attempt) (n : nat) (port : Z) : loop_result :=
  match n with
  | O => exhausted
  | S n' =>
      match bind port with
      | bound => returned port
      | os_error => try_ports bind n' (port + 1)
      | other_error e => raised e
      end
  end.

Inductive port_result : Type :=
| port_found (port : Z)
| runtime_error (msg : string)     (* raise RuntimeError(msg) *)
| uncaught (e : exn).

Definition find_available_port (bind : Z -> attempt) (start_port max_attempts : Z)
  : port_result :=
  match try_ports bind (Z.to_nat max_attempts) start_port with
  | returned port => port_found port
  | raised e => uncaught e
  | exhausted =>
      runtime_error ("Could not find available port in range "
                       ++ str_int start_port ++ "-"
                       ++ str_int (start_port + max_attempts - 1))
  end.

(** A host on which the ports below [free] are taken. *)
Definition taken_below (free : Z) (port : Z) : attempt :=
  if port <? free then os_error else bound.

End Gateway.

(** * Properties *)

(** ** Facts on the string operations *)

Module PyStrFacts.
Import PyStr.

Lemma contains_char_app c s t :
  contains_char c (s ++ t) = contains_char c s || contains_char c t.
Proof.
  induction s as [|d s IH]; simpl; [reflexivity|].
  rewrite IH. apply orb_assoc.
Qed.

Lemma contains_char_remove c d s :
  c <> d -> contains_char c (remove_char d s) = contains_char c s.
Proof.
  intros Hcd. induction s as [|e s IH]; simpl; [reflexivity|].
  destruct (Ascii.eqb_spec e d) as [->|Hed]; simpl.
  - destruct (Ascii.eqb_spec d c) as [Heq|_]; [congruence|]. exact IH.
  - now rewrite IH.
Qed.

Lemma count_char_remove c d s :
  c <> d -> count_char c (remove_char d s) = count_char c s.
Proof.
  intros Hcd. induction s as [|e s IH]; simpl; [reflexivity|].
  destruct (Ascii.eqb_spec e d) as [->|Hed]; simpl.
  - destruct (Ascii.eqb_spec d c) as [Heq|_]; [congruence|]. exact IH.
  - now rewrite IH.
Qed.

Lemma before_remove c d s :
  c <> d -> before c (remove_char d s) = remove_char d (before c s).
Proof.
  intros Hcd. induction s as [|e s IH]; simpl; [reflexivity|].
  destruct (Ascii.eqb_spec e d) as [->|Hed]; simpl.
  - destruct (Ascii.eqb_spec d c) as [Heq|_]; [congruence|].
    simpl. rewrite Ascii.eqb_refl. exact IH.
  - destruct (Ascii.eqb_spec e c) as [->|Hec]; simpl; [reflexivity|].
    destruct (Ascii.eqb_spec e d); [contradiction|]. now rewrite IH.
Qed.

Lemma split_length sep s : List.length (split sep s) = S (count_char sep s).
Proof.
  induction s as [|c s IH]; simpl; [reflexivity|].
  destruct (Ascii.eqb c sep); simpl; [now rewrite IH|].
  destruct (split sep s); simpl in *; [discriminate|exact IH].
Qed.

Lemma split_hd sep s : hd EmptyString (split sep s) = before sep s.
Proof.
  induction s as [|c s IH]; simpl; [reflexivity|].
  destruct (Ascii.eqb c sep); simpl; [reflexivity|].
  destruct (split sep s); simpl in *; now rewrite <- IH.
Qed.

(** A string with exactly one separator splits in two, the first part
    being the text before the separator. *)
Lemma split_one sep s :
  count_char sep s = 1%nat -> exists rhs, split sep s = [before sep s; rhs].
Proof.
  intros Hc. pose proof (split_length sep s) as Hl.
  pose proof (split_hd sep s) as Hh. rewrite Hc in Hl.
  destruct (split sep s) as [|a [|b [|x t]]]; simpl in *; try discriminate.
  exists b. now subst.
Qed.

Lemma split_not_two sep s :
  count_char sep s <> 1%nat -> forall a b, split sep s <> [a; b].
Proof.
  intros Hc a b Heq. pose proof (split_length sep s) as Hl.
  rewrite Heq in Hl. simpl in Hl. apply Hc. congruence.
Qed.

Lemma split1_two sep s a b :
  split1 sep s = [a; b] -> s = a ++ String sep b.
Proof.
  revert a b. induction s as [|c s IH]; simpl; intros a b H; [discriminate|].
  destruct (Ascii.eqb_spec c sep) as [->|Hne].
  - now inversion H.
  - destruct (split1 sep s) as [|h t]; [discriminate|].
    inversion H; subst. simpl. f_equal. now apply IH.
Qed.

Lemma split1_without sep s :
  contains_char sep s = false -> split1 sep s = [s].
Proof.
  induction s as [|c s IH]; simpl; [reflexivity|].
  destruct (Ascii.eqb c sep); simpl; [discriminate|].
  intros H. now rewrite (IH H).
Qed.

Lemma append_cons_assoc s c t u :
  (s ++ String c t) ++ u = s ++ String c (t ++ u).
Proof. induction s as [|d s IH]; simpl; [reflexivity|now rewrite IH]. Qed.

Lemma split_nonempty sep s : split sep s <> [].
Proof.
  intros H. pose proof (split_length sep s) as Hl. rewrite H in Hl. discriminate Hl.
Qed.

Lemma split_single sep s r :
  split sep s = [r] -> s = r /\ contains_char sep r = false.
Proof.
  revert r. induction s as [|c s IH]; simpl; intros r H.
  - inversion H. split; reflexivity.
  - destruct (Ascii.eqb c sep) eqn:Hc.
    + injection H as Hr Hs. now elim (split_nonempty sep s).
    + destruct (split sep s) as [|h t] eqn:Hs;
        [now elim (split_nonempty sep s)|].
      inversion H; subst. destruct (IH h eq_refl) as [-> Hh].
      split; [reflexivity|]. simpl. now rewrite Hc.
Qed.

Lemma split_two sep s l r :
  split sep s = [l; r] ->
  s = l ++ String sep r /\ contains_char sep l = false /\ contains_char sep r = false.
Proof.
  revert l. induction s as [|c s IH]; simpl; intros l H; [discriminate|].
  destruct (Ascii.eqb_spec c sep) as [->|Hc].
  - injection H as Hl Hs. subst l. destruct (split_single _ _ _ Hs) as [-> Hr].
    repeat split; assumption.
  - destruct (split sep s) as [|h t] eqn:Hs; [discriminate|].
    inversion H; subst. destruct (IH h eq_refl) as [-> [Hh Hr]].
    repeat split; try assumption. simpl.
    destruct (Ascii.eqb_spec c sep); [contradiction|exact Hh].
Qed.

Lemma split1_before sep s a b :
  split1 sep s = [a; b] -> contains_char sep a = false.
Proof.
  revert a. induction s as [|c s IH]; simpl; intros a H; [discriminate|].
  destruct (Ascii.eqb c sep) eqn:Hc.
  - now inversion H.
  - destruct (split1 sep s) as [|h t] eqn:Hs; [discriminate|].
    inversion H; subst. simpl. rewrite Hc. now apply IH.
Qed.

Lemma split_without sep s :
  contains_char sep s = false -> split sep s = [s].
Proof.
  induction s as [|c s IH]; simpl; [reflexivity|].
  destruct (Ascii.eqb c sep); simpl; [discriminate|].
  intros H. now rewrite (IH H).
Qed.

Lemma split_app sep l r :
  contains_char sep l = false -> contains_char sep r = false ->
  split sep (l ++ String sep r) = [l; r].
Proof.
  intros Hl Hr. induction l as [|c l IH]; simpl.
  - rewrite Ascii.eqb_refl. now rewrite (split_without _ _ Hr).
  - simpl in Hl. destruct (Ascii.eqb c sep); [discriminate|].
    simpl in Hl. now rewrite (IH Hl).
Qed.

Lemma split1_app sep a b :
  contains_char sep a = false -> split1 sep (a ++ String sep b) = [a; b].
Proof.
  intros Ha. induction a as [|c a IH]; simpl.
  - now rewrite Ascii.eqb_refl.
  - simpl in Ha. destruct (Ascii.eqb c sep); [discriminate|].
    simpl in Ha. now rewrite (IH Ha).
Qed.

End PyStrFacts.

(** ** Facts on [float(s)] *)

Module PyFloatFacts.
Import PyStr PyNum PyStrFacts.

Lemma contains_char_rev_onto c s acc :
  contains_char c (rev_onto s acc) = contains_char c s || contains_char c acc.
Proof.
  revert acc. induction s as [|d s IH]; intros acc; simpl; [reflexivity|].
  rewrite IH. simpl.
  destruct (Ascii.eqb d c), (contains_char c s); reflexivity.
Qed.

Lemma contains_char_rev c s : contains_char c (rev s) = contains_char c s.
Proof. unfold rev. rewrite contains_char_rev_onto. simpl. apply orb_false_r. Qed.

Lemma contains_char_lstrip c s :
  is_space c = false -> contains_char c (lstrip s) = contains_char c s.
Proof.
  intros Hc. induction s as [|d s IH]; simpl; [reflexivity|].
  destruct (is_space d) eqn:Hd; [|reflexivity].
  rewrite IH. destruct (Ascii.eqb_spec d c) as [->|_]; [congruence|reflexivity].
Qed.

Lemma contains_char_strip c s :
  is_space c = false -> contains_char c (strip s) = contains_char c s.
Proof.
  intros Hc. unfold strip.
  now rewrite contains_char_rev, contains_char_lstrip, contains_char_rev,
    contains_char_lstrip.
Qed.

Lemma contains_char_scan_sign c s :
  c <> "-"%char -> c <> "+"%char ->
  contains_char c (snd (scan_sign s)) = contains_char c s.
Proof.
  intros Hm Hp. destruct s as [|d r]; [reflexivity|]. unfold scan_sign.
  destruct (Ascii.eqb_spec d "-") as [->|_]; cbn [snd contains_char].
  - destruct (Ascii.eqb_spec "-" c); [congruence|reflexivity].
  - destruct (Ascii.eqb_spec d "+") as [->|_]; cbn [snd contains_char];
      [|reflexivity].
    destruct (Ascii.eqb_spec "+" c); [congruence|reflexivity].
Qed.

Lemma contains_x_lower s :
  contains_char "x" s = true -> contains_char "x" (lower s) = true.
Proof.
  induction s as [|d s IH]; simpl; [discriminate|].
  destruct (Ascii.eqb_spec d "x") as [->|_]; simpl; [reflexivity|].
  intros H. rewrite (IH H). apply orb_true_r.
Qed.

Lemma digit_is_not_x c d : digit_val c = Some d -> Ascii.eqb c "x" = false.
Proof.
  intros H. destruct (Ascii.eqb_spec c "x") as [->|_]; [discriminate|reflexivity].
Qed.

(** [scan_digits] reads digits and underscores only. *)
Lemma scan_digits_keeps_x fuel : forall s acc n m k r,
  (String.length s <= fuel)%nat ->
  scan_digits acc n s = (m, k, r) ->
  contains_char "x" s = contains_char "x" r.
Proof.
  induction fuel as [|fuel IH]; intros s acc n m k r Hlen H.
  - destruct s; [|simpl in Hlen; lia]. simpl in H. now inversion H.
  - destruct s as [|c s]; simpl in H; [now inversion H|].
    simpl in Hlen.
    destruct (digit_val c) as [d|] eqn:Hc.
    + simpl. rewrite (digit_is_not_x _ _ Hc). simpl.
      eapply IH; [|exact H]; lia.
    + destruct (Ascii.eqb_spec c "_") as [->|_]; [|now inversion H].
      destruct s as [|c' s']; [now inversion H|].
      destruct (digit_val c') as [d'|] eqn:Hc'; [|now inversion H].
      simpl. rewrite (digit_is_not_x _ _ Hc'). simpl.
      simpl in Hlen. eapply IH; [|exact H]; lia.
Qed.

Lemma scan_digitpart_keeps_x s acc n m k r :
  scan_digitpart acc n s = Some (m, k, r) ->
  contains_char "x" s = contains_char "x" r.
Proof.
  unfold scan_digitpart. destruct s as [|c s]; [discriminate|].
  destruct (digit_val c) as [d|] eqn:Hc; [|discriminate].
  intros H. injection H as H. simpl. rewrite (digit_is_not_x _ _ Hc). simpl.
  eapply scan_digits_keeps_x; [apply Nat.le_refl|exact H].
Qed.

Lemma scan_number_keeps_x s m k r :
  scan_number s = Some (m, k, r) ->
  contains_char "x" s = contains_char "x" r.
Proof.
  unfold scan_number.
  destruct (scan_digitpart 0 0 s) as [[[ip ?] r0]|] eqn:Hip.
  - rewrite (scan_digitpart_keeps_x _ _ _ _ _ _ Hip).
    destruct r0 as [|c r1]; [intros H; now inversion H|].
    destruct (Ascii.eqb_spec c ".") as [->|_]; [|intros H; now inversion H].
    destruct (scan_digitpart ip 0 r1) as [[[m' k'] r']|] eqn:Hf; intros H;
      inversion H; subst; simpl.
    + apply (scan_digitpart_keeps_x _ _ _ _ _ _ Hf).
    + reflexivity.
  - destruct s as [|c s]; [discriminate|].
    destruct (Ascii.eqb_spec c ".") as [->|_]; [|discriminate].
    intros H. simpl. apply (scan_digitpart_keeps_x _ _ _ _ _ _ H).
Qed.

Lemma scan_exponent_has_no_x s e :
  scan_exponent s = Some e -> contains_char "x" s = false.
Proof.
  unfold scan_exponent. destruct s as [|c s]; [reflexivity|].
  destruct (Ascii.eqb c "e" || Ascii.eqb c "E") eqn:Hc; [|discriminate].
  pose proof (contains_char_scan_sign "x" s) as Hs.
  destruct (scan_sign s) as [neg r1]. simpl in Hs.
  destruct (scan_digitpart 0 0 r1) as [[[e' ?] r2]|] eqn:Hd; [|discriminate].
  destruct r2; [|discriminate]. intros _.
  pose proof (scan_digitpart_keeps_x _ _ _ _ _ _ Hd) as Hx. simpl in Hx.
  simpl. rewrite <- Hs, Hx by discriminate.
  destruct (Ascii.eqb_spec c "x") as [->|_]; [discriminate Hc|reflexivity].
Qed.

(** No text with an ['x'] is a float literal. *)
Lemma parse_float_has_no_x s f :
  parse_float s = Some f -> contains_char "x" s = false.
Proof.
  unfold parse_float.
  pose proof (contains_char_scan_sign "x" (strip s)) as Hs.
  destruct (scan_sign (strip s)) as [neg body]. simpl in Hs.
  rewrite contains_char_strip in Hs by reflexivity.
  rewrite <- Hs by discriminate.
  destruct (contains_char "x" body) eqn:Hx; [|reflexivity].
  pose proof (contains_x_lower _ Hx) as Hl.
  destruct (String.eqb_spec (lower body) "inf") as [E|_];
    [rewrite E in Hl; discriminate|].
  destruct (String.eqb_spec (lower body) "infinity") as [E|_];
    [rewrite E in Hl; discriminate|].
  destruct (String.eqb_spec (lower body) "nan") as [E|_];
    [rewrite E in Hl; discriminate|].
  simpl.
  destruct (scan_number body) as [[[m k] r]|] eqn:Hn; [|discriminate].
  destruct (scan_exponent r) as [e|] eqn:He; [|discriminate].
  intros _. rewrite (scan_number_keeps_x _ _ _ _ Hn) in Hx.
  rewrite (scan_exponent_has_no_x _ _ He) in Hx. discriminate.
Qed.

Lemma py_float_rejects_x s :
  contains_char "x" s = true ->
  py_float s = Raise (ValueError ("could not convert string to float: " ++ repr s)).
Proof.
  intros Hx. unfold py_float.
  destruct (parse_float s) as [f|] eqn:Hp; [|reflexivity].
  rewrite (parse_float_has_no_x _ _ Hp) in Hx. discriminate.
Qed.

End PyFloatFacts.

(** ** The tool handlers *)

Section MathToolsFacts.
Import PyStr PyNum MathTools PyStrFacts PyFloatFacts.
Variable rt : runtime.

(** The two parts [solve_equation] works on, for an equation with one
    ['=']. *)
Lemma parts_of_one_equals equation :
  count_char "=" equation = 1%nat ->
  exists rhs,
    split "=" (remove_char " " equation)
    = [remove_char " " (before "=" equation); rhs].
Proof.
  intros Hc.
  destruct (split_one "=" (remove_char " " equation)) as [rhs Hs].
  - rewrite count_char_remove; [exact Hc | discriminate].
  - exists rhs. rewrite Hs. rewrite before_remove; [reflexivity | discriminate].
Qed.

Lemma try_wrong_equals equation :
  count_char "=" equation <> 1%nat ->
  solve_equation_try rt equation
  = Raise (ValueError "Equation must contain exactly one '='").
Proof.
  intros Hc. unfold solve_equation_try.
  assert (Hn : forall a b, split "=" (remove_char " " equation) <> [a; b]).
  { apply split_not_two. rewrite count_char_remove; [exact Hc | discriminate]. }
  destruct (split "=" (remove_char " " equation)) as [|a [|b [|c t]]];
    try reflexivity.
  now elim (Hn a b).
Qed.

Lemma try_without_x equation :
  count_char "=" equation = 1%nat ->
  contains_char "x" (before "=" equation) = false ->
  solve_equation_try rt equation
  = Raise (ValueError "Equation must contain 'x' on the left side").
Proof.
  intros Hc Hx. unfold solve_equation_try.
  destruct (parts_of_one_equals equation Hc) as [rhs ->].
  rewrite contains_char_remove by discriminate. now rewrite Hx.
Qed.

Lemma try_without_plus equation :
  count_char "=" equation = 1%nat ->
  contains_char "x" (before "=" equation) = true ->
  contains_char "+" (before "=" equation) = false ->
  solve_equation_try rt equation
  = Raise (ValueError "Unsupported equation format").
Proof.
  intros Hc Hx Hp. unfold solve_equation_try.
  destruct (parts_of_one_equals equation Hc) as [rhs ->].
  rewrite !contains_char_remove by discriminate. now rewrite Hx, Hp.
Qed.

(** Whatever [solve_equation] solves is of the accepted form, with a
    coefficient that is written out and is not zero. *)
Lemma solved_is_additive equation d :
  solve_equation_try rt equation = Return d ->
  exists a b c,
    accepted_form equation a b c /\
    SFeqb a fzero = false /\
    dict_get "result" d = Some (VScalar (SNum (PyFloat (fdiv (fsub c b) a)))).
Proof.
  unfold solve_equation_try. intros H.
  destruct (split "=" (remove_char " " equation)) as [|lhs [|rhs [|]]] eqn:Hparts;
    try discriminate.
  destruct (contains_char "x" lhs) eqn:Hx; [|discriminate].
  destruct (contains_char "+" lhs) eqn:Hplus; [|discriminate].
  destruct (split1 "+" lhs) as [|a_part [|b_part [|]]] eqn:Hsplit;
    try discriminate.
  cbn [negb] in H.
  destruct (split_two _ _ _ _ Hparts) as [Heq [Hl Hr]].
  pose proof (split1_two _ _ _ _ Hsplit) as Hlhs.
  pose proof (split1_before _ _ _ _ Hsplit) as Ha_plus.
  rewrite Hlhs, contains_char_app in Hl, Hx.
  apply orb_false_iff in Hl. destruct Hl as [Ha_eq Hb_eq].
  cbn [contains_char] in Hb_eq, Hx.
  destruct (contains_char "x" a_part) eqn:Hxa.
  - unfold bind in H.
    destruct (py_float (remove_char "x" a_part)) as [a|] eqn:Ha; [|discriminate].
    destruct (py_float b_part) as [b|] eqn:Hb; [|discriminate].
    destruct (py_float rhs) as [c|] eqn:Hc; [|discriminate].
    unfold float_truediv in H.
    destruct (SFeqb a fzero) eqn:Hzero; [discriminate|].
    injection H as <-. exists a, b, c. split; [|split; [exact Hzero|reflexivity]].
    exists a_part, b_part, rhs. rewrite Heq, Hlhs, append_cons_assoc.
    repeat split; assumption.
  - simpl in Hx. rewrite (py_float_rejects_x b_part Hx) in H. discriminate.
Qed.

(** Conversely every equation of the accepted form with a non-zero
    coefficient is solved, with result [(c - b) / a]. *)
Lemma additive_is_solved equation a b c :
  accepted_form equation a b c ->
  SFeqb a fzero = false ->
  exists d,
    solve_equation rt equation = Return d /\
    dict_mem "error" d = false /\
    dict_get "result" d = Some (VScalar (SNum (PyFloat (fdiv (fsub c b) a)))).
Proof.
  intros [a_part [b_part [c_part [Heq [Hx [Hap [Hae [Hbe [Hce [Ha [Hb Hc]]]]]]]]]]] Hz.
  unfold solve_equation, solve_equation_try.
  assert (Hparts : split "=" (remove_char " " equation)
                   = [a_part ++ String "+" b_part; c_part]).
  { rewrite Heq.
    replace (a_part ++ String "+" (b_part ++ String "=" c_part))
      with ((a_part ++ String "+" b_part) ++ String "=" c_part)
      by apply append_cons_assoc.
    apply split_app; [|exact Hce].
    rewrite contains_char_app, Hae. simpl. exact Hbe. }
  rewrite Hparts.
  rewrite !contains_char_app, Hx. cbn [orb negb contains_char].
  rewrite Ascii.eqb_refl. rewrite orb_true_r. cbn [orb].
  rewrite (split1_app _ _ _ Hap), Hx, Ha. cbn [bind].
  rewrite Hb, Hc. cbn [bind]. unfold float_truediv. rewrite Hz.
  cbn [bind try_except]. eexists. repeat split.
Qed.

(** C6.  For every equation string [solve_equation] returns a dictionary:
    no exception leaves it, and a dictionary with an ["error"] carries the
    descriptive ["message"] and no ["result"].  An equation that does not
    have exactly one ['='] gets the error dictionary of ["Equation must
    contain exactly one '='"]; one with no ['x'] before its ['='] that of
    ["Equation must contain 'x' on the left side"]; one with an ['x'] and no
    ['+'] before its ['='], as ["2x - 3 = 7"], that of ["Unsupported
    equation format"].  Nothing is said of the other ways a text can differ
    from ['<a>x + <b> = <c>']: some of them are solved. *)
Theorem solve_equation_rejects_unsupported_shapes equation :
  (exists d, solve_equation rt equation = Return d) /\
  (forall d,
     solve_equation rt equation = Return d ->
     dict_mem "error" d = true ->
     exists e,
       d = solve_equation_error equation e /\
       dict_get "error" d = Some (VStr (str_exn e)) /\
       dict_get "message" d = Some (VStr failure_message) /\
       dict_get "result" d = None) /\
  (count_char "=" equation <> 1%nat ->
   solve_equation rt equation
   = Return (solve_equation_error equation
               (ValueError "Equation must contain exactly one '='"))) /\
  (count_char "=" equation = 1%nat ->
   contains_char "x" (before "=" equation) = false ->
   solve_equation rt equation
   = Return (solve_equation_error equation
               (ValueError "Equation must contain 'x' on the left side"))) /\
  (count_char "=" equation = 1%nat ->
   contains_char "x" (before "=" equation) = true ->
   contains_char "+" (before "=" equation) = false ->
   solve_equation rt equation
   = Return (solve_equation_error equation
               (ValueError "Unsupported equation format"))) /\
  (unsupported_shape equation ->
   exists msg,
     In msg shape_messages /\
     solve_equation rt equation
     = Return (solve_equation_error equation (ValueError msg)) /\
     dict_get "error" (solve_equation_error equation (ValueError msg))
     = Some (VStr msg)).
Proof.
  assert (Hwrong := try_wrong_equals equation).
  assert (Hx := try_without_x equation).
  assert (Hplus := try_without_plus equation).
  unfold solve_equation, try_except.
  split; [|split; [|split; [|split; [|split]]]].
  - destruct (solve_equation_try rt equation); eexists; reflexivity.
  - intros d Hd Herr.
    destruct (solve_equation_try rt equation) as [d'|e] eqn:Htry.
    + injection Hd as <-. unfold solve_equation_try, bind in Htry.
      repeat match type of Htry with
             | context [match ?x with _ => _ end] =>
                 destruct x eqn:?; try discriminate
             end.
      injection Htry as <-. discriminate Herr.
    + injection Hd as <-. exists e. repeat split.
  - intros Hc. now rewrite (Hwrong Hc).
  - intros Hc Hnx. now rewrite (Hx Hc Hnx).
  - intros Hc Hhx Hp. now rewrite (Hplus Hc Hhx Hp).
  - intros Hshape. unfold shape_messages.
    destruct (Nat.eq_dec (count_char "=" equation) 1) as [Hc|Hc].
    + destruct (contains_char "x" (before "=" equation)) eqn:Hhx.
      * destruct Hshape as [H|[H|Hp]]; [contradiction|congruence|].
        rewrite (Hplus Hc eq_refl Hp).
        eexists; split; [|split; reflexivity]. simpl; auto.
      * rewrite (Hx Hc eq_refl).
        eexists; split; [|split; reflexivity]. simpl; auto.
    + rewrite (Hwrong Hc).
      eexists; split; [|split; reflexivity]. simpl; auto.
Qed.


(** The result of every handler that returns is built last, after every
    operation that can raise. *)
Ltac returns H :=
  unfold bind in H;
  repeat match type of H with
         | context [match ?x with _ => _ end] => destruct x eqn:?; try discriminate
         end;
  inversion H; subst; clear H.

(** C8.  Every dictionary a handler returns without an ["error"] key, for
    any of the seven tools and any arguments, has a ["steps"] list that is
    not empty and whose last entry is the final line stating the value of
    ["result"]: ["Final result: <result>"], and for [solve_equation]
    ["Final solution: x = <result>"]. *)
Theorem successful_result_ends_with_final_line r d :
  mcp_math_server rt r = Return d ->
  dict_mem "error" d = false ->
  exists steps result,
    dict_get "steps" d = Some (VList steps) /\
    dict_get "result" d = Some (VScalar result) /\
    steps <> [] /\
    last_step steps = Some (final_line rt r result).
Proof.
  intros H Herr. destruct r; simpl in H.
  1-6: unfold add, subtract, multiply, divide, power, square_root in H;
       returns H; do 2 eexists; repeat split; try reflexivity; discriminate.
  unfold solve_equation, try_except in H.
  destruct (solve_equation_try rt equation) as [d'|e] eqn:E.
  - inversion H; subst d'; clear H.
    unfold solve_equation_try in E.
    destruct (split "=" (remove_char " " equation)) as [|lhs [|rhs [|]]];
      try discriminate.
    destruct (negb (contains_char "x" lhs)); try discriminate.
    destruct (contains_char "+" lhs) eqn:Hplus; try discriminate.
    destruct (split1 "+" lhs) as [|a_part [|b_part [|]]]; try discriminate.
    returns E; do 2 eexists; repeat split; try reflexivity; discriminate.
  - inversion H; subst d. discriminate Herr.
Qed.

(** C3, as the code has it.  For every [a], [divide(a, b)] with [b == 0]
    raises [ValueError("Cannot divide by zero")], and for every
    [number < 0], [square_root(number)] raises [ValueError("Cannot
    calculate square root of a negative number")]: the handler returns no
    dictionary, hence no numeric result, infinity or NaN. *)
Theorem domain_errors_are_raised a b number :
  (eq_zero b = true ->
   divide rt a b = Raise (ValueError "Cannot divide by zero")) /\
  (lt_zero number = true ->
   square_root rt number
   = Raise (ValueError "Cannot calculate square root of a negative number")).
Proof.
  split; intros H; [unfold divide | unfold square_root]; now rewrite H.
Qed.

(** What [solve_equation] does when the coefficient of [x] is left out. *)
Lemma omitted_coefficient_is_rejected equation b_part rhs :
  split "=" (remove_char " " equation) = ["x+" ++ b_part; rhs] ->
  solve_equation rt equation
  = Return (solve_equation_error equation
              (ValueError "could not convert string to float: ''")).
Proof.
  intros H. unfold solve_equation, solve_equation_try. rewrite H. reflexivity.
Qed.

(** C4.  [solve_equation("x + 3 = 7")] does not yield [4.0]: the text left
    of the ['+'] is ["x"], it contains ['x'], so the default [1.0] is not
    taken, [float('')] raises, and the handler returns the error
    dictionary, which has no ["result"].  With the coefficient written,
    [solve_equation("2x + 3 = 7")] yields [2.0]. *)
Theorem solve_equation_implicit_coefficient :
  solve_equation rt "x + 3 = 7"
  = Return (solve_equation_error "x + 3 = 7"
              (ValueError "could not convert string to float: ''")) /\
  (exists d, solve_equation rt "x + 3 = 7" = Return d /\
             dict_mem "error" d = true /\ dict_get "result" d = None) /\
  (exists d, solve_equation rt "2x + 3 = 7" = Return d /\
             dict_get "result" d = Some (VScalar (SNum (PyFloat (float_of_Z 2))))).
Proof.
  split; [reflexivity|]. split; eexists; repeat split.
Qed.

(** C9.  For every equation that [solve_equation] parses into a zero
    coefficient [a] (and numbers [b] and [c]), the division [(c - b) / a]
    raises [ZeroDivisionError], which the [except] block turns into the
    error dictionary: the handler returns it, with an ["error"] and no
    ["result"], instead of raising or of returning an infinite result. *)
Theorem zero_coefficient_is_an_error equation lhs rhs a_part b_part a :
  split "=" (remove_char " " equation) = [lhs; rhs] ->
  split1 "+" lhs = [a_part; b_part] ->
  contains_char "x" a_part = true ->
  py_float (remove_char "x" a_part) = Return a ->
  SFeqb a fzero = true ->
  exists e,
    solve_equation rt equation = Return (solve_equation_error equation e) /\
    dict_mem "error" (solve_equation_error equation e) = true /\
    dict_get "result" (solve_equation_error equation e) = None /\
    (forall b c,
        py_float b_part = Return b -> py_float rhs = Return c ->
        float_truediv (fsub c b) a
        = Raise (ZeroDivisionError "float division by zero") /\
        e = ZeroDivisionError "float division by zero").
Proof.
  intros Hparts Hsplit Hx Ha Hzero.
  pose proof (split1_two _ _ _ _ Hsplit) as Hl.
  assert (Hxl : contains_char "x" lhs = true).
  { rewrite Hl, contains_char_app, Hx. reflexivity. }
  assert (Hpl : contains_char "+" lhs = true).
  { rewrite Hl, contains_char_app. simpl. apply orb_true_r. }
  unfold solve_equation, solve_equation_try.
  rewrite Hparts, Hxl, Hpl, Hsplit, Hx, Ha. cbn [negb bind].
  destruct (py_float b_part) as [b|eb]; cbn [bind try_except].
  - destruct (py_float rhs) as [c|ec]; cbn [bind try_except].
    + unfold float_truediv. rewrite Hzero. cbn [bind try_except].
      eexists. do 3 (split; [reflexivity|]).
      intros b' c' Hb' Hc'. split; reflexivity.
    + eexists. do 3 (split; [reflexivity|]). discriminate.
  - eexists. do 3 (split; [reflexivity|]). discriminate.
Qed.

End MathToolsFacts.


(** ** The graph *)

Section GraphFacts.
Import PyNum Graph.
Local Open Scope list_scope.
Variable C : collaborators.

Lemma last_item_snoc {A : Type} (l : list A) (x : A) :
  last_item (l ++ [x]) = Return x.
Proof. unfold last_item. now rewrite rev_app_distr. Qed.

Lemma get_id_present tool_call i default :
  tc_id tool_call = Some i -> get_id tool_call default = i.
Proof. unfold get_id. now intros ->. Qed.

(** Every path through the body of the loop ends in one [append]. *)
Lemma iteration_appends st tool_call :
  tool_messages (call_tool_iteration C st tool_call)
  = (tool_messages st ++ [reply C tool_call])%list.
Proof.
  unfold call_tool_iteration, call_tool_try, reply, reply_content,
    getitem_id, get_id, error_msg, bind; simpl.
  destruct (mcp_call_tool C _ _) as [text|e]; [|reflexivity].
  destruct (json_loads C text) as [tool_result|].
  - destruct (format_tool_response C _ tool_result);
      destruct (tc_id tool_call); reflexivity.
  - destruct (tc_id tool_call); reflexivity.
Qed.

Lemma iteration_invokes st tool_call :
  invoked (call_tool_iteration C st tool_call)
  = (invoked st ++ [transport_call tool_call])%list.
Proof. reflexivity. Qed.

Lemma loop_from calls : forall st,
  tool_messages (fold_left (call_tool_iteration C) calls st)
  = (tool_messages st ++ map (reply C) calls)%list /\
  invoked (fold_left (call_tool_iteration C) calls st)
  = (invoked st ++ map transport_call calls)%list.
Proof.
  induction calls as [|tc calls IH]; intros st; simpl.
  - now rewrite !app_nil_r.
  - destruct (IH (call_tool_iteration C st tc)) as [Hm Hi].
    rewrite Hm, Hi, iteration_appends, iteration_invokes, <- !app_assoc.
    split; reflexivity.
Qed.

Lemma call_tool_loop_spec calls :
  tool_messages (call_tool_loop C calls) = map (reply C) calls /\
  invoked (call_tool_loop C calls) = map transport_call calls.
Proof. unfold call_tool_loop. apply (loop_from calls). Qed.

Lemma call_tool_after_assistant prefix a :
  call_tool C (prefix ++ [AI a]) = Return (map (reply C) (tool_calls a)).
Proof.
  unfold call_tool. rewrite last_item_snoc. simpl.
  now rewrite (proj1 (call_tool_loop_spec (tool_calls a))).
Qed.

Lemma workflow_call_tool prefix a :
  workflow C (call_tool_node, (prefix ++ [AI a])%list)
  = Return (call_llm_node,
            ((prefix ++ [AI a]) ++ map (reply C) (tool_calls a))%list).
Proof.
  unfold workflow, node_function. rewrite call_tool_after_assistant.
  reflexivity.
Qed.

(** C2.  On a state whose last message is an assistant message with [N]
    tool calls, [call_tool] returns exactly [N] messages, all of them tool
    messages, in the order of the calls: the [k]-th one carries the id of
    the [k]-th call (["unknown"] when that call's dictionary has no
    ["id"]), the transport is called once per call in that same order, and
    the graph appends the [N] messages and goes back to the model. *)
Theorem call_tool_answers_every_call prefix a :
  exists results,
    call_tool C (prefix ++ [AI a]) = Return results /\
    List.length results = List.length (tool_calls a) /\
    map correlation_id results
    = map (fun tool_call => Some (get_id tool_call "unknown")) (tool_calls a) /\
    invoked (call_tool_loop C (tool_calls a)) = map transport_call (tool_calls a) /\
    workflow C (call_tool_node, (prefix ++ [AI a])%list)
    = Return (call_llm_node, ((prefix ++ [AI a]) ++ results)%list).
Proof.
  exists (map (reply C) (tool_calls a)).
  split; [apply call_tool_after_assistant|].
  split; [apply length_map|].
  split; [now rewrite map_map|].
  split; [apply call_tool_loop_spec | apply workflow_call_tool].
Qed.

(** C7, as the code has it.  When the transport call made for a tool call
    fails with an exception [e] (as it does for a tool the server does not
    have), [call_tool] does not raise: it returns a tool message whose
    content is exactly ["Error calling tool <name>: <str(e)>"], carrying
    the id of the call, and the graph goes on to the model. *)
Theorem failed_call_is_reported prefix a tool_call e :
  In tool_call (tool_calls a) ->
  mcp_call_tool C ("math_tools." ++ tc_name tool_call)%string (tc_args tool_call) = Raise e ->
  exists results,
    call_tool C (prefix ++ [AI a]) = Return results /\
    In (ToolMessage ("Error calling tool " ++ tc_name tool_call ++ ": " ++ str_exn e)%string
                    (get_id tool_call "unknown")) results /\
    workflow C (call_tool_node, (prefix ++ [AI a])%list)
    = Return (call_llm_node, ((prefix ++ [AI a]) ++ results)%list).
Proof.
  intros Hin He. exists (map (reply C) (tool_calls a)).
  split; [apply call_tool_after_assistant|].
  split; [|apply workflow_call_tool].
  replace (ToolMessage _ _) with (reply C tool_call); [now apply in_map|].
  unfold reply, reply_content. now rewrite He.
Qed.

Lemma workflow_call_llm state response :
  llm_invoke C llm_with_tools (call_llm_messages state) = Return response ->
  workflow C (call_llm_node, state)
  = Return (match tool_calls response with
            | [] => END
            | _ :: _ => call_tool_node
            end, (state ++ [AI response])%list).
Proof.
  intros H. unfold workflow, node_function, call_llm. rewrite H.
  cbn [bind]. unfold reducer, successor, should_call_tool.
  rewrite last_item_snoc. cbn [bind].
  destruct (tool_calls response); reflexivity.
Qed.

(** C5.  When the model answers [response], the step at the model node
    appends it as one assistant message and routes to [END] exactly when
    [response] has no tool calls, in which case the run stops there with
    that state; it routes to the tool node exactly when [response] has
    tool calls, and the step at the tool node then goes back to the model
    node. *)
Theorem loop_ends_exactly_without_tool_calls state response :
  llm_invoke C llm_with_tools (call_llm_messages state) = Return response ->
  exists next,
    workflow C (call_llm_node, state)
    = Return (next, (state ++ [AI response])%list) /\
    (next = END <-> tool_calls response = []) /\
    (next = call_tool_node <-> tool_calls response <> []) /\
    (next = END ->
     forall limit, test_agent_graph C limit (next, (state ++ [AI response])%list)
                   = Return (END, (state ++ [AI response])%list)) /\
    (next = call_tool_node ->
     exists results,
       call_tool C (state ++ [AI response]) = Return results /\
       workflow C (next, (state ++ [AI response])%list)
       = Return (call_llm_node, ((state ++ [AI response]) ++ results)%list)).
Proof.
  intros H. rewrite (workflow_call_llm state response H).
  destruct (tool_calls response) as [|tc calls] eqn:Hcalls; eexists;
    (split; [reflexivity|]).
  - repeat split; try congruence; try discriminate.
    intros _ [|limit]; reflexivity.
  - repeat split; try congruence; try discriminate.
    intros _. exists (map (reply C) (tool_calls response)).
    split; [apply call_tool_after_assistant | apply workflow_call_tool].
Qed.

(** The only edge into [END] leaves the model node, after a response
    without tool calls. *)
Lemma step_into_END n state state' :
  n <> END ->
  workflow C (n, state) = Return (END, state') ->
  n = call_llm_node /\ ends_with_final_answer state'.
Proof.
  intros Hn H. unfold workflow in H.
  destruct (node_function C n state) as [update|e] eqn:Hu; [|discriminate].
  cbn [bind] in H. destruct n; simpl in H; try discriminate.
  - split; [reflexivity|].
    simpl in Hu. unfold call_llm in Hu.
    destruct (llm_invoke C _ _) as [response|]; [|discriminate].
    injection Hu as <-. unfold reducer, should_call_tool in H.
    rewrite last_item_snoc in H. cbn [bind] in H.
    destruct (tool_calls response) eqn:Hcalls; [|discriminate].
    injection H as <-. exists state, response. split; [reflexivity|exact Hcalls].
  - now elim Hn.
Qed.

(** A run that returns has stopped at [END], on a final answer. *)
Lemma run_ends_on_a_final_answer limit : forall n state cfg,
  n <> END ->
  test_agent_graph C limit (n, state) = Return cfg ->
  fst cfg = END /\ ends_with_final_answer (snd cfg).
Proof.
  induction limit as [|limit IH]; intros n state cfg Hn H.
  - destruct n; try discriminate. now elim Hn.
  - assert (Hrun : test_agent_graph C (S limit) (n, state)
                   = (cfg' <- workflow C (n, state) ;; test_agent_graph C limit cfg')).
    { destruct n; try reflexivity. now elim Hn. }
    rewrite Hrun in H. clear Hrun.
    destruct (workflow C (n, state)) as [[n' state']|e] eqn:Hstep; [|discriminate].
    cbn [bind] in H.
    destruct n'; try (eapply IH; [|exact H]; discriminate).
    destruct (step_into_END _ _ _ Hn Hstep) as [_ Hfinal].
    assert (Hcfg : cfg = (END, state')) by (destruct limit; simpl in H; congruence).
    subst cfg. split; [reflexivity|exact Hfinal].
Qed.


Lemma replies_are_tool_messages calls :
  no_system_message (map (reply C) calls).
Proof.
  unfold no_system_message. apply Forall_forall. intros m Hm.
  apply in_map_iff in Hm. destruct Hm as [tc [<- _]]. reflexivity.
Qed.

(** A step of the graph only appends, and what it appends is the model's
    response or tool messages. *)
Lemma workflow_appends n state n' state' :
  workflow C (n, state) = Return (n', state') ->
  exists update, state' = state ++ update /\ no_system_message update.
Proof.
  unfold workflow, reducer. intros H.
  destruct (node_function C n state) as [update|e] eqn:Hu; [|discriminate].
  cbn [bind] in H.
  destruct (successor n (state ++ update)) as [m|e]; [|discriminate].
  inversion H; subst. exists update. split; [reflexivity|].
  destruct n; simpl in Hu.
  - inversion Hu. constructor.
  - unfold call_llm in Hu.
    destruct (llm_invoke C _ _); [|discriminate].
    inversion Hu. repeat constructor.
  - unfold call_tool in Hu.
    destruct (last_item state); [|discriminate].
    inversion Hu. rewrite (proj1 (call_tool_loop_spec _)).
    apply replies_are_tool_messages.
  - inversion Hu. constructor.
Qed.

Lemma reachable_no_system init cfg :
  no_system_message init -> reachable C init cfg -> no_system_message (snd cfg).
Proof.
  intros Hinit Hr. induction Hr as [|[n state] [n' state'] Hr IH Hstep].
  - exact Hinit.
  - destruct (workflow_appends _ _ _ _ Hstep) as [update [-> Hu]].
    simpl in *. apply Forall_app. split; assumption.
Qed.

Lemma prompt_is_prepended state :
  no_system_message state ->
  call_llm_messages state = SystemMessage MATH_SYSTEM_PROMPT :: state.
Proof.
  intros H. unfold call_llm_messages.
  replace (existsb is_system state) with false; [reflexivity|].
  symmetry. induction H as [|m state Hm _ IH]; simpl; [reflexivity|].
  now rewrite Hm, IH.
Qed.

Lemma supplied_prompt_is_kept state :
  existsb is_system state = true -> call_llm_messages state = state.
Proof. intros H. unfold call_llm_messages. now rewrite H. Qed.

(** C10.  In every configuration a run reaches from a state without a
    system message, the stored messages still contain no system message;
    the messages handed to the model are the system prompt followed by the
    stored ones, so the prompt is prepended anew at every model call; and
    the update [call_llm] returns is the model's response alone. *)
Theorem loop_stores_no_system_message init cfg :
  no_system_message init ->
  reachable C init cfg ->
  no_system_message (snd cfg) /\
  call_llm_messages (snd cfg) = SystemMessage MATH_SYSTEM_PROMPT :: snd cfg /\
  call_llm C (snd cfg)
  = (response <- llm_invoke C llm_with_tools
                   (SystemMessage MATH_SYSTEM_PROMPT :: snd cfg) ;;
     Return [AI response]).
Proof.
  intros Hinit Hr.
  pose proof (reachable_no_system init cfg Hinit Hr) as Hns.
  split; [exact Hns|]. split; [now apply prompt_is_prepended|].
  unfold call_llm. now rewrite prompt_is_prepended.
Qed.

(** C1.  The schemas bound to the model when [call_llm] invokes it are
    those of the second assignment to [llm_tools]: the single tool
    [add_numbers], which is none of the seven tools of the system prompt.
    The seven schemas were bound by the first [bind_tools], at line 161,
    and replaced at line 179. *)
Theorem bound_tools_are_the_last_assignment state :
  bound_tools llm_with_tools = llm_tools_line_162 /\
  map fn_name (bound_tools llm_with_tools) = ["add_numbers"%string] /\
  existsb (fun name => existsb (String.eqb name) prompt_tool_names)
          (map fn_name (bound_tools llm_with_tools)) = false /\
  g_llm_with_tools
    (fold_left exec (firstn 2 module_body)
               {| g_llm_tools := []; g_llm_with_tools := None |})
  = Some (bind_tools llm_tools_line_54 "auto") /\
  map fn_name llm_tools_line_54 = prompt_tool_names /\
  call_llm C state
  = (response <- llm_invoke C (bind_tools llm_tools_line_162 "auto")
                   (call_llm_messages state) ;;
     Return [AI response]).
Proof. repeat split. Qed.

End GraphFacts.

Section ReplyShape.
Import PyNum Graph.
Local Open Scope list_scope.
Variable C : collaborators.

Lemma format_tool_response_starts tool_name tool_result s :
  format_tool_response C tool_name tool_result = Return s ->
  PyStr.starts_with "E" s \/ PyStr.starts_with "#" s.
Proof.
  unfold format_tool_response. intros H.
  destruct tool_result as [| | | | |d]; try discriminate.
  destruct (mem "error" d).
  - left. inversion H. eexists; reflexivity.
  - right. unfold bind in H.
    destruct (get "operation" (JStr "calculation") d); try discriminate.
    destruct (truthy (get "steps" (JArr []) d)).
    + destruct (iterate (get "steps" (JArr []) d)); [|discriminate].
      destruct (shows_result (get "result" (JStr "") d));
        injection H as <-; eexists; simpl; reflexivity.
    + destruct (shows_result (get "result" (JStr "") d));
        injection H as <-; eexists; simpl; reflexivity.
Qed.

(** Whatever the transport and the decoder do, the content of a reply
    opens with [Error ...], [Tool response ...] or a [##] heading. *)
Lemma reply_content_starts tool_call :
  PyStr.starts_with "E" (reply_content C tool_call) \/
  PyStr.starts_with "T" (reply_content C tool_call) \/
  PyStr.starts_with "#" (reply_content C tool_call).
Proof.
  unfold reply_content, error_msg.
  destruct (mcp_call_tool C _ _) as [text|e]; [|left; eexists; reflexivity].
  destruct (json_loads C text) as [tool_result|], (tc_id tool_call).
  - destruct (format_tool_response C _ tool_result) eqn:Hf;
      [|left; eexists; reflexivity].
    destruct (format_tool_response_starts _ _ _ Hf); auto.
  - destruct (format_tool_response C _ tool_result);
      left; eexists; reflexivity.
  - right; left; eexists; reflexivity.
  - left; eexists; reflexivity.
Qed.

Lemma reply_is_never_unknown_tool tool_call :
  reply_content C tool_call <> ("unknown tool: " ++ tc_name tool_call)%string.
Proof.
  intros Heq.
  destruct (reply_content_starts tool_call) as [[r H]|[[r H]|[r H]]];
    rewrite Heq in H; discriminate.
Qed.

End ReplyShape.

(** ** The statements at concrete inputs *)

(** C3, counterexample.  [divide(1, 0)] and [square_root(-4)] return no error
    result: each leaves the handler by raising [ValueError]. *)
Lemma divide_and_square_root_raise :
  MathTools.divide MathTools.bare_runtime (PyNum.PyInt 1) (PyNum.PyInt 0)
  = Raise (ValueError "Cannot divide by zero") /\
  ~ (exists d, MathTools.divide MathTools.bare_runtime (PyNum.PyInt 1) (PyNum.PyInt 0)
               = Return d) /\
  MathTools.square_root MathTools.bare_runtime (PyNum.PyInt (-4))
  = Raise (ValueError "Cannot calculate square root of a negative number") /\
  ~ (exists d, MathTools.square_root MathTools.bare_runtime (PyNum.PyInt (-4))
               = Return d).
Proof.
  repeat split; try reflexivity; intros [d H]; discriminate H.
Qed.

Lemma domain_errors_are_raised_witness :
  PyNum.eq_zero (PyNum.PyInt 0) = true /\
  PyNum.lt_zero (PyNum.PyInt (-4)) = true /\
  MathTools.divide MathTools.bare_runtime (PyNum.PyInt 1) (PyNum.PyInt 0)
  = Raise (ValueError "Cannot divide by zero") /\
  MathTools.square_root MathTools.bare_runtime (PyNum.PyInt (-4))
  = Raise (ValueError "Cannot calculate square root of a negative number").
Proof.
  split; [reflexivity|]. split; [reflexivity|].
  destruct (domain_errors_are_raised MathTools.bare_runtime
              (PyNum.PyInt 1) (PyNum.PyInt 0) (PyNum.PyInt (-4))) as [Hd Hs].
  split; [apply Hd | apply Hs]; reflexivity.
Defined.

Lemma solve_equation_rejects_unsupported_shapes_witness :
  MathTools.unsupported_shape "2x - 3 = 7" /\
  MathTools.solve_equation MathTools.bare_runtime "2x - 3 = 7"
  = Return (MathTools.solve_equation_error "2x - 3 = 7"
              (ValueError "Unsupported equation format")) /\
  MathTools.solve_equation MathTools.bare_runtime "2x + 3 = 7 = 1"
  = Return (MathTools.solve_equation_error "2x + 3 = 7 = 1"
              (ValueError "Equation must contain exactly one '='")) /\
  MathTools.solve_equation MathTools.bare_runtime "3 + 2 = 7"
  = Return (MathTools.solve_equation_error "3 + 2 = 7"
              (ValueError "Equation must contain 'x' on the left side")).
Proof.
  split; [right; right; reflexivity|].
  split; [|split].
  - destruct (solve_equation_rejects_unsupported_shapes
                MathTools.bare_runtime "2x - 3 = 7") as [_ [_ [_ [_ [H _]]]]].
    apply H; reflexivity.
  - destruct (solve_equation_rejects_unsupported_shapes
                MathTools.bare_runtime "2x + 3 = 7 = 1") as [_ [_ [H _]]].
    apply H; discriminate.
  - destruct (solve_equation_rejects_unsupported_shapes
                MathTools.bare_runtime "3 + 2 = 7") as [_ [_ [_ [H _]]]].
    apply H; reflexivity.
Defined.

(** C6, counterexample.  Three texts that are not of the form ['<a>x + <b>
    = <c>'] and are solved all the same: ["2x ++ 3 = 7"] has two ['+'],
    and [float("+3")] is [3.0]; in ["x2 + 3 = 7"] and ["1x0 + 3 = 7"] the
    ['x'] does not close the coefficient, and taking it out leaves ["2"] and
    ["10"].  The results are [2.0], [2.0] and [0.4], and none of the three
    dictionaries has an ["error"]. *)
Lemma malformed_equations_are_solved :
  (exists d,
      MathTools.solve_equation MathTools.bare_runtime "2x ++ 3 = 7" = Return d /\
      MathTools.dict_mem "error" d = false /\
      MathTools.dict_get "result" d
      = Some (MathTools.VScalar (MathTools.SNum (PyNum.PyFloat (PyNum.float_of_Z 2))))) /\
  (exists d,
      MathTools.solve_equation MathTools.bare_runtime "x2 + 3 = 7" = Return d /\
      MathTools.dict_mem "error" d = false /\
      MathTools.dict_get "result" d
      = Some (MathTools.VScalar (MathTools.SNum (PyNum.PyFloat (PyNum.float_of_Z 2))))) /\
  (exists d,
      MathTools.solve_equation MathTools.bare_runtime "1x0 + 3 = 7" = Return d /\
      MathTools.dict_mem "error" d = false /\
      MathTools.dict_get "result" d
      = Some (MathTools.VScalar (MathTools.SNum
                (PyNum.PyFloat (PyNum.fdiv (PyNum.float_of_Z 4) (PyNum.float_of_Z 10)))))).
Proof.
  split; [|split]; eexists; (split; [vm_compute; reflexivity|]);
    split; vm_compute; reflexivity.
Qed.

Lemma successful_result_ends_with_final_line_witness :
  exists d,
    MathTools.mcp_math_server MathTools.bare_runtime
      (MathTools.req_multiply (PyNum.PyInt 123) (PyNum.PyInt 456)) = Return d /\
    MathTools.dict_mem "error" d = false /\
    exists steps result,
      MathTools.dict_get "steps" d = Some (MathTools.VList steps) /\
      MathTools.dict_get "result" d = Some (MathTools.VScalar result) /\
      steps <> [] /\
      MathTools.last_step steps
      = Some (MathTools.final_line MathTools.bare_runtime
                (MathTools.req_multiply (PyNum.PyInt 123) (PyNum.PyInt 456)) result).
Proof.
  eexists. split; [reflexivity|]. split; [reflexivity|].
  apply (successful_result_ends_with_final_line MathTools.bare_runtime
           (MathTools.req_multiply (PyNum.PyInt 123) (PyNum.PyInt 456)));
    reflexivity.
Defined.

Lemma zero_coefficient_is_an_error_witness :
  PyStr.split "=" (PyStr.remove_char " " "0x + 3 = 7") = ["0x+3"; "7"] /\
  PyStr.split1 "+" "0x+3" = ["0x"; "3"] /\
  PyStr.contains_char "x" "0x" = true /\
  PyNum.py_float (PyStr.remove_char "x" "0x") = Return (S754_zero false) /\
  SFeqb (S754_zero false) PyNum.fzero = true /\
  exists e,
    MathTools.solve_equation MathTools.bare_runtime "0x + 3 = 7"
    = Return (MathTools.solve_equation_error "0x + 3 = 7" e) /\
    e = ZeroDivisionError "float division by zero".
Proof.
  repeat (split; [reflexivity|]).
  destruct (zero_coefficient_is_an_error MathTools.bare_runtime
              "0x + 3 = 7" "0x+3" "7" "0x" "3" (S754_zero false)
              eq_refl eq_refl eq_refl eq_refl eq_refl)
    as [e [Heq [_ [_ Hdiv]]]].
  exists e. split; [exact Heq|].
  exact (proj2 (Hdiv (PyNum.float_of_Z 3) (PyNum.float_of_Z 7) eq_refl eq_refl)).
Defined.

(** C7, counterexample.  For a call to [cube], a tool the server does not
    have, the message [call_tool] returns reads ["Error calling tool cube:
    Unknown tool: math_tools.cube"], not ["unknown tool: cube"]. *)
Lemma unknown_tool_is_reported_as_a_call_error :
  Graph.call_tool Graph.unregistered (Graph.question ++ [Graph.AI Graph.cube_request])%list
  = Return [Graph.ToolMessage "Error calling tool cube: Unknown tool: math_tools.cube"
              "call_1"] /\
  Graph.call_tool Graph.unregistered (Graph.question ++ [Graph.AI Graph.cube_request])%list
  <> Return [Graph.ToolMessage "unknown tool: cube" "call_1"].
Proof.
  split; [reflexivity | discriminate].
Qed.

Lemma failed_call_is_reported_witness :
  In Graph.cube_call (Graph.tool_calls Graph.cube_request) /\
  Graph.mcp_call_tool Graph.unregistered "math_tools.cube" (Graph.tc_args Graph.cube_call)
  = Raise (Exception "Unknown tool: math_tools.cube") /\
  exists results,
    Graph.call_tool Graph.unregistered (Graph.question ++ [Graph.AI Graph.cube_request])%list
    = Return results /\
    In (Graph.ToolMessage "Error calling tool cube: Unknown tool: math_tools.cube" "call_1")
       results.
Proof.
  assert (Hin : In Graph.cube_call (Graph.tool_calls Graph.cube_request))
    by (left; reflexivity).
  split; [exact Hin|]. split; [reflexivity|].
  destruct (failed_call_is_reported Graph.unregistered Graph.question
              Graph.cube_request Graph.cube_call
              (Exception "Unknown tool: math_tools.cube") Hin eq_refl)
    as [results [Hcall [Hmsg _]]].
  exists results. split; assumption.
Defined.

Lemma loop_ends_exactly_without_tool_calls_witness :
  Graph.llm_invoke Graph.unregistered Graph.llm_with_tools
    (Graph.call_llm_messages Graph.question) = Return Graph.final_answer /\
  exists next,
    Graph.workflow Graph.unregistered (Graph.call_llm_node, Graph.question)
    = Return (next, (Graph.question ++ [Graph.AI Graph.final_answer])%list) /\
    (next = Graph.END <-> Graph.tool_calls Graph.final_answer = []).
Proof.
  split; [reflexivity|].
  destruct (loop_ends_exactly_without_tool_calls Graph.unregistered
              Graph.question Graph.final_answer eq_refl)
    as [next [Hstep [Hend _]]].
  exists next. split; assumption.
Defined.

Lemma loop_stores_no_system_message_witness :
  Graph.no_system_message Graph.question /\
  Graph.reachable Graph.unregistered Graph.question
    (Graph.END, (Graph.question ++ [Graph.AI Graph.final_answer])%list) /\
  Graph.no_system_message (Graph.question ++ [Graph.AI Graph.final_answer])%list /\
  Graph.call_llm_messages (Graph.question ++ [Graph.AI Graph.final_answer])%list
  = Graph.SystemMessage Graph.MATH_SYSTEM_PROMPT
      :: (Graph.question ++ [Graph.AI Graph.final_answer])%list.
Proof.
  assert (Hinit : Graph.no_system_message Graph.question)
    by (repeat constructor).
  assert (Hreach : Graph.reachable Graph.unregistered Graph.question
                     (Graph.END, (Graph.question ++ [Graph.AI Graph.final_answer])%list)).
  { apply Graph.reachable_step with (cfg := (Graph.call_llm_node, Graph.question));
      [|reflexivity].
    apply Graph.reachable_step with (cfg := (Graph.START, Graph.question));
      [apply Graph.reachable_start | reflexivity]. }
  split; [exact Hinit|]. split; [exact Hreach|].
  destruct (loop_stores_no_system_message Graph.unregistered Graph.question _
              Hinit Hreach) as [Hns [Hmsgs _]].
  split; assumption.
Defined.

(** * Further properties *)

(** ** More on the tool handlers *)

Section MoreMathToolsFacts.
Import PyStr PyNum MathTools Requests PyStrFacts PyFloatFacts.
Variable rt : runtime.

Lemma solve_equation_cases equation :
  (exists d, solve_equation_try rt equation = Return d /\
             solve_equation rt equation = Return d /\
             dict_mem "error" d = false) \/
  (exists e, solve_equation_try rt equation = Raise e /\
             solve_equation rt equation
             = Return (solve_equation_error equation e)).
Proof.
  unfold solve_equation, try_except.
  destruct (solve_equation_try rt equation) as [d|e] eqn:Htry.
  - left. exists d. repeat split.
    unfold solve_equation_try in Htry.
    destruct (split "=" (remove_char " " equation)) as [|lhs [|rhs [|]]];
      try discriminate.
    destruct (negb (contains_char "x" lhs)); try discriminate.
    destruct (contains_char "+" lhs); try discriminate.
    destruct (split1 "+" lhs) as [|a_part [|b_part [|]]]; try discriminate.
    unfold bind in Htry.
    repeat match type of Htry with
           | context [match ?x with _ => _ end] => destruct x; try discriminate
           end.
    injection Htry as <-. reflexivity.
  - right. exists e. split; reflexivity.
Qed.

(** On ASCII text, [solve_equation] returns a result [v] exactly for the
    equations of the form its parse accepts ([accepted_form]) whose
    coefficient is not zero, and [v] is then [(c - b) / a].  The text is
    ASCII because [py_float] is [float()] on ASCII text only. *)
Theorem solve_equation_solves_exactly_the_accepted_form equation v :
  is_ascii equation = true ->
  (exists d, solve_equation rt equation = Return d /\
             dict_mem "error" d = false /\
             dict_get "result" d = Some v) <->
  (exists a b c, accepted_form equation a b c /\
                 SFeqb a fzero = false /\
                 v = VScalar (SNum (PyFloat (fdiv (fsub c b) a)))).
Proof.
  intros _. split.
  - intros [d [Hsolve [Herr Hres]]].
    destruct (solve_equation_cases equation) as [[d' [Htry [Hs _]]]|[e [_ Hs]]].
    + rewrite Hs in Hsolve. injection Hsolve as ->.
      destruct (solved_is_additive rt equation d Htry) as [a [b [c [Hf [Hz Hr]]]]].
      exists a, b, c. repeat split; try assumption. congruence.
    + rewrite Hs in Hsolve. injection Hsolve as <-. discriminate Herr.
  - intros [a [b [c [Hf [Hz ->]]]]].
    destruct (additive_is_solved rt equation a b c Hf Hz) as [d H].
    exists d. exact H.
Qed.

(** What [solve_equation] computes depends on the text without its spaces
    only. *)
Lemma solve_equation_try_spaces e1 e2 :
  remove_char " " e1 = remove_char " " e2 ->
  match solve_equation_try rt e1, solve_equation_try rt e2 with
  | Return d1, Return d2 => dict_get "result" d1 = dict_get "result" d2
  | Raise x1, Raise x2 => x1 = x2
  | _, _ => False
  end.
Proof.
  intros H. unfold solve_equation_try. rewrite H.
  destruct (split "=" (remove_char " " e2)) as [|lhs [|rhs [|]]];
    try reflexivity.
  destruct (negb (contains_char "x" lhs)); try reflexivity.
  destruct (contains_char "+" lhs); try reflexivity.
  destruct (split1 "+" lhs) as [|a_part [|b_part [|]]]; try reflexivity.
  unfold bind.
  destruct (if contains_char "x" a_part
            then py_float (remove_char "x" a_part) else Return one);
    try reflexivity.
  destruct (py_float b_part); try reflexivity.
  destruct (py_float rhs); try reflexivity.
  destruct (float_truediv _ _); reflexivity.
Qed.

(** Spaces are ignored wherever they stand: two equations that are equal
    once their spaces are removed get the same ["result"] and the same
    ["error"]. *)
Theorem solve_equation_ignores_spaces e1 e2 d1 d2 :
  remove_char " " e1 = remove_char " " e2 ->
  solve_equation rt e1 = Return d1 ->
  solve_equation rt e2 = Return d2 ->
  dict_get "result" d1 = dict_get "result" d2 /\
  dict_get "error" d1 = dict_get "error" d2.
Proof.
  intros H H1 H2. pose proof (solve_equation_try_spaces e1 e2 H) as Hs.
  destruct (solve_equation_cases e1) as [[d1' [Ht1 [Hs1 He1]]]|[x1 [Ht1 Hs1]]];
    destruct (solve_equation_cases e2) as [[d2' [Ht2 [Hs2 He2]]]|[x2 [Ht2 Hs2]]];
    rewrite Ht1, Ht2 in Hs; try contradiction;
    rewrite Hs1 in H1; rewrite Hs2 in H2;
    injection H1 as <-; injection H2 as <-.
  - split; [exact Hs|].
    unfold dict_mem in He1, He2.
    destruct (dict_get "error" d1'), (dict_get "error" d2');
      try discriminate. reflexivity.
  - subst x2. split; reflexivity.
Qed.

(** When the ['x'] stands right of the first ['+'] only (as in
    ["3 + x = 7"]), the coefficient defaults to [1.0] but [float(b_part)]
    fails: the answer is the error dictionary for that [ValueError]. *)
Theorem variable_after_the_plus_is_rejected equation lhs rhs a_part b_part :
  split "=" (remove_char " " equation) = [lhs; rhs] ->
  split1 "+" lhs = [a_part; b_part] ->
  contains_char "x" a_part = false ->
  contains_char "x" b_part = true ->
  solve_equation rt equation
  = Return (solve_equation_error equation
              (ValueError ("could not convert string to float: " ++ repr b_part))).
Proof.
  intros Hparts Hsplit Hxa Hxb.
  pose proof (split1_two _ _ _ _ Hsplit) as Hl.
  assert (Hxl : contains_char "x" lhs = true).
  { rewrite Hl, contains_char_app. simpl. rewrite Hxb. now rewrite !orb_true_r. }
  assert (Hpl : contains_char "+" lhs = true).
  { rewrite Hl, contains_char_app. simpl. apply orb_true_r. }
  unfold solve_equation, solve_equation_try.
  rewrite Hparts, Hxl, Hpl, Hsplit, Hxa. cbn [negb bind].
  rewrite (py_float_rejects_x b_part Hxb). reflexivity.
Qed.

(** Every dictionary of [solve_equation] names the operation, echoes the
    equation as it was given, and has either an ["error"] with its
    ["message"] or a ["result"] with its ["steps"], never both. *)
Theorem solve_equation_returns_result_or_error equation :
  exists d,
    solve_equation rt equation = Return d /\
    dict_get "operation" d = Some (VStr "solve_equation") /\
    dict_get "equation" d = Some (VStr equation) /\
    dict_mem "error" d = negb (dict_mem "result" d) /\
    dict_mem "message" d = dict_mem "error" d /\
    dict_mem "steps" d = dict_mem "result" d.
Proof.
  unfold solve_equation, try_except.
  destruct (solve_equation_try rt equation) as [d|e] eqn:Htry.
  - exists d. split; [reflexivity|].
    unfold solve_equation_try in Htry.
    destruct (split "=" (remove_char " " equation)) as [|lhs [|rhs [|]]];
      try discriminate.
    destruct (negb (contains_char "x" lhs)); try discriminate.
    destruct (contains_char "+" lhs); try discriminate.
    destruct (split1 "+" lhs) as [|a_part [|b_part [|]]]; try discriminate.
    unfold bind in Htry.
    repeat match type of Htry with
           | context [match ?x with _ => _ end] => destruct x; try discriminate
           end.
    injection Htry as <-. repeat split.
  - eexists. repeat split.
Qed.

End MoreMathToolsFacts.

Module RoundingFacts.
Import PyNum.

(** Rounding keeps the sign it is given: the rounded value of a magnitude
    with sign [false] is never below zero. *)
Lemma binary_round_aux_not_negative m e l :
  SFltb (binary_round_aux prec emax false m e l) fzero = false.
Proof.
  unfold binary_round_aux.
  destruct (shr_fexp prec emax m e l) as [mrs' e'].
  destruct (shr_fexp prec emax _ e' loc_Exact) as [mrs'' e''].
  destruct (shr_m mrs''); [reflexivity| |reflexivity].
  destruct (e'' <=? emax - prec); reflexivity.
Qed.

Lemma float_of_Z_not_negative z : 0 <= z -> SFltb (float_of_Z z) fzero = false.
Proof.
  intros Hz. unfold float_of_Z, binary_normalize.
  destruct z as [|p|p]; [reflexivity| |lia].
  unfold binary_round. destruct (shl_align p 0 _) as [mz ez].
  apply binary_round_aux_not_negative.
Qed.

Lemma fsqrt_not_negative x : SFltb (fsqrt x) fzero = false.
Proof.
  unfold fsqrt, SFsqrt. destruct x as [s|s| |s m e]; try reflexivity;
    destruct s; try reflexivity.
  destruct (SFsqrt_core_binary prec emax (Z.pos m) e) as [[mz ez] lz].
  apply binary_round_aux_not_negative.
Qed.

End RoundingFacts.

Section ArithmeticFacts.
Import PyStr PyNum MathTools Requests RoundingFacts.
Variable rt : runtime.

Ltac handler_returned H :=
  unfold bind in H;
  repeat match type of H with
         | context [match ?x with _ => _ end] => destruct x eqn:?; try discriminate
         end;
  inversion H; subst; clear H.

(** A dictionary returned by one of the six arithmetic handlers has no
    ["error"]; it carries the handler's ["operation"] label, and a trace of
    three steps whose second one is the ["expression"], [" = "] and the
    result, and whose third one is the final line. *)
Theorem arithmetic_results_are_consistent r d :
  is_arithmetic r = true ->
  mcp_math_server rt r = Return d ->
  dict_mem "error" d = false /\
  dict_get "operation" d = Some (VStr (operation_label r)) /\
  exists expression result first,
    dict_get "expression" d = Some (VStr expression) /\
    dict_get "result" d = Some (VScalar result) /\
    dict_get "steps" d
    = Some (VList [ first;
                    expression ++ " = " ++ fmt_scalar rt result;
                    "Final result: " ++ fmt_scalar rt result ]).
Proof.
  intros Hr H. destruct r; try discriminate Hr; simpl in H;
    unfold add, subtract, multiply, divide, power, square_root in H;
    handler_returned H; (split; [reflexivity|]); (split; [reflexivity|]);
    do 3 eexists; (split; [reflexivity|]); (split; [reflexivity|]);
    simpl; rewrite ?PyStrFacts.append_cons_assoc; reflexivity.
Qed.


(** [divide] raises [ValueError("Cannot divide by zero")] exactly when
    [b == 0]: the guard is the only place this error comes from, whatever
    the division and the formatting of a non-zero [b] do. *)
Theorem divide_by_zero_error_exactly_on_zero a b :
  divide rt a b = Raise (ValueError "Cannot divide by zero") <->
  eq_zero b = true.
Proof.
  unfold divide. destruct (eq_zero b) eqn:Hb.
  - split; reflexivity.
  - split; [|discriminate].
    intros H. exfalso.
    unfold py_truediv, bind, int_truediv, float_truediv, to_float, int_to_float in H.
    repeat match type of H with
           | context [match ?x with _ => _ end] =>
               lazymatch x with
               | context [match _ with _ => _ end] => fail
               | _ => destruct x; try discriminate
               end
           end.
Qed.

Lemma math_sqrt_after_the_guard number :
  lt_zero number = false ->
  math_sqrt number = Raise (OverflowError "int too large to convert to float") \/
  exists x, to_float number = Return x /\ math_sqrt number = Return (PyFloat (fsqrt x)).
Proof.
  intros Hn. unfold math_sqrt, to_float, int_to_float.
  destruct number as [z|f]; simpl in Hn.
  - destruct (is_infinite (float_of_Z z)); [left; reflexivity|].
    right. exists (float_of_Z z). cbn [bind].
    rewrite float_of_Z_not_negative by lia. split; reflexivity.
  - right. exists f. cbn [bind]. rewrite Hn. split; reflexivity.
Qed.

(** [square_root] raises a [ValueError] exactly when [number < 0], with the
    message of its guard: the domain error of [math.sqrt] itself is never
    reached. *)
Theorem square_root_raises_value_error_exactly_below_zero number msg :
  square_root rt number = Raise (ValueError msg) <->
  (lt_zero number = true /\
   msg = "Cannot calculate square root of a negative number").
Proof.
  unfold square_root. destruct (lt_zero number) eqn:Hn.
  - split; [intros H; injection H as <-; auto | intros [_ ->]; reflexivity].
  - split; [|intros [H _]; discriminate H].
    intros H. exfalso.
    destruct (math_sqrt_after_the_guard number Hn) as [Hs|[x [_ Hs]]];
      rewrite Hs in H; discriminate H.
Qed.

(** The ["result"] of [square_root] is the square root of the argument as
    a float, and is never below zero. *)
Theorem square_root_result_is_not_negative number d :
  square_root rt number = Return d ->
  exists x,
    to_float number = Return x /\
    dict_get "result" d = Some (VScalar (SNum (PyFloat (fsqrt x)))) /\
    SFltb (fsqrt x) fzero = false.
Proof.
  unfold square_root. destruct (lt_zero number) eqn:Hn; [discriminate|].
  destruct (math_sqrt_after_the_guard number Hn) as [Hs|[x [Hx Hs]]];
    rewrite Hs; [discriminate|].
  cbn [bind]. intros H. injection H as <-. exists x.
  split; [exact Hx|]. split; [reflexivity|apply fsqrt_not_negative].
Qed.

(** On two floats whose divisor is not zero [divide] always returns, and
    its ["result"] is the IEEE quotient as it is: an infinite or NaN
    quotient is not filtered. *)
Theorem divide_on_floats_checks_only_for_zero a b :
  SFeqb b fzero = false ->
  exists d,
    divide rt (PyFloat a) (PyFloat b) = Return d /\
    dict_get "result" d = Some (VScalar (SNum (PyFloat (fdiv a b)))).
Proof.
  intros Hb. unfold divide, py_truediv, float_truediv. simpl.
  rewrite Hb. eexists. split; reflexivity.
Qed.

End ArithmeticFacts.

Section PresentationFacts.
Import PyStr PyNum MathTools Requests Graph Transport.
Variable rt : runtime.
Variable C : collaborators.

Lemma eqb_append_nonempty s c t : String.eqb (s ++ String c t) "" = false.
Proof. destruct s; reflexivity. Qed.

Ltac handler_returned H :=
  unfold bind in H;
  repeat match type of H with
         | context [match ?x with _ => _ end] => destruct x eqn:?; try discriminate
         end;
  inversion H; subst; clear H.

(** Whatever a handler returns without an ["error"], once decoded from
    JSON, is formatted without failure: the heading is the capitalised
    operation label and the ["expression"] (empty for [solve_equation],
    whose dictionary has none), every step of the trace is listed, none
    skipped, and the result closes the text. *)
Theorem success_is_presented_in_full r d j tool_name :
  mcp_math_server rt r = Return d ->
  dict_mem "error" d = false ->
  as_json d = Some j ->
  exists steps n,
    dict_get "steps" d = Some (VList steps) /\
    dict_get "result" d = Some (VScalar (SNum n)) /\
    format_tool_response C tool_name j
    = Return (presentation
                ("## " ++ capitalize (operation_label r) ++ ": "
                   ++ match dict_get "expression" d with
                      | Some (VStr expression) => expression
                      | _ => ""
                      end)
                steps (py_str C (JNum n))).
Proof.
  intros H Herr Hj. destruct r; simpl in H.
  1-6: unfold add, subtract, multiply, divide, power, square_root in H;
       handler_returned H;
       try match goal with result : scalar |- _ => destruct result end;
       unfold as_json in Hj; cbn [fields_json value_json] in Hj;
       try discriminate Hj;
       injection Hj as <-; do 2 eexists;
       (split; [reflexivity|]); (split; [reflexivity|]);
       unfold format_tool_response, presentation; simpl;
       rewrite ?eqb_append_nonempty; reflexivity.
  unfold solve_equation, try_except in H.
  destruct (solve_equation_try rt equation) as [d'|e] eqn:E.
  - inversion H; subst d'; clear H.
    unfold solve_equation_try in E.
    destruct (split "=" (remove_char " " equation)) as [|lhs [|rhs [|]]];
      try discriminate.
    destruct (negb (contains_char "x" lhs)); try discriminate.
    destruct (contains_char "+" lhs) eqn:Hplus; try discriminate.
    destruct (split1 "+" lhs) as [|a_part [|b_part [|]]]; try discriminate.
    handler_returned E. unfold as_json in Hj. cbn [fields_json value_json] in Hj.
    injection Hj as <-. do 2 eexists.
    (split; [reflexivity|]); (split; [reflexivity|]).
    unfold format_tool_response, presentation; simpl.
    rewrite ?eqb_append_nonempty. reflexivity.
  - inversion H; subst d. discriminate Herr.
Qed.

(** Whatever made [solve_equation] fail, its decoded error dictionary is
    formatted as ["Error in <tool>: "] followed by the fixed ["message"]:
    the text of the exception under ["error"] is not shown. *)
Theorem solve_equation_failure_hides_its_cause equation d j tool_name :
  solve_equation rt equation = Return d ->
  dict_mem "error" d = true ->
  as_json d = Some j ->
  format_tool_response C tool_name j
  = Return ("Error in " ++ tool_name ++ ": " ++ failure_message).
Proof.
  intros H Herr Hj.
  destruct (solve_equation_cases rt equation) as [[d' [_ [Hs He]]]|[e [_ Hs]]];
    rewrite Hs in H; injection H as <-.
  - congruence.
  - unfold as_json in Hj. cbn in Hj. injection Hj as <-. reflexivity.
Qed.

End PresentationFacts.

(** ** More on the graph *)

Section MoreGraphFacts.
Import PyNum Graph Conversation.
Local Open Scope list_scope.
Variable C : collaborators.

Lemma reply_in_results prefix a tool_call :
  In tool_call (tool_calls a) ->
  exists results,
    call_tool C (prefix ++ [AI a]) = Return results /\
    In (reply C tool_call) results.
Proof.
  intros Hin. exists (map (reply C) (tool_calls a)).
  split; [apply call_tool_after_assistant | now apply in_map].
Qed.

(** When the transport answers a call, the answer decodes and is
    formatted, the formatted text is returned in a tool message under the
    id of that call. *)
Theorem formatted_result_is_delivered prefix a tool_call text j s i :
  In tool_call (tool_calls a) ->
  mcp_call_tool C ("math_tools." ++ tc_name tool_call)%string (tc_args tool_call)
  = Return text ->
  json_loads C text = Some j ->
  format_tool_response C (tc_name tool_call) j = Return s ->
  tc_id tool_call = Some i ->
  exists results,
    call_tool C (prefix ++ [AI a]) = Return results /\
    In (ToolMessage s i) results.
Proof.
  intros Hin Ht Hj Hs Hi.
  destruct (reply_in_results prefix a tool_call Hin) as [results [Hc Hr]].
  exists results. split; [exact Hc|].
  unfold reply, reply_content, get_id in Hr. now rewrite Ht, Hj, Hi, Hs in Hr.
Qed.

(** When the answer of the transport is no JSON, it is returned as it is
    after ["Tool response could not be parsed: "], under the id of the
    call. *)
Theorem unparsable_text_is_passed_on prefix a tool_call text i :
  In tool_call (tool_calls a) ->
  mcp_call_tool C ("math_tools." ++ tc_name tool_call)%string (tc_args tool_call)
  = Return text ->
  json_loads C text = None ->
  tc_id tool_call = Some i ->
  exists results,
    call_tool C (prefix ++ [AI a]) = Return results /\
    In (ToolMessage ("Tool response could not be parsed: " ++ text)%string i) results.
Proof.
  intros Hin Ht Hj Hi.
  destruct (reply_in_results prefix a tool_call Hin) as [results [Hc Hr]].
  exists results. split; [exact Hc|].
  unfold reply, reply_content, get_id in Hr. now rewrite Ht, Hj, Hi in Hr.
Qed.

Lemma format_tool_response_needs_an_object tool_name j :
  is_object j = false ->
  exists e, format_tool_response C tool_name j = Raise e /\
            (e = TypeError ("argument of type '" ++ type_name j ++ "' is not iterable")%string \/
             e = AttributeError ("'" ++ type_name j ++ "' object has no attribute 'get'")%string).
Proof.
  destruct j as [| | | | |d]; simpl; intros H; try discriminate;
    eexists; split; try reflexivity; auto.
Qed.

(** When the answer decodes to a JSON value that is no object,
    [format_tool_response] raises and [call_tool] returns the
    ["Error calling tool"] message with the text of that exception. *)
Theorem decoded_non_object_is_reported prefix a tool_call text j :
  In tool_call (tool_calls a) ->
  mcp_call_tool C ("math_tools." ++ tc_name tool_call)%string (tc_args tool_call)
  = Return text ->
  json_loads C text = Some j ->
  is_object j = false ->
  exists results e,
    call_tool C (prefix ++ [AI a]) = Return results /\
    format_tool_response C (tc_name tool_call) j = Raise e /\
    In (ToolMessage ("Error calling tool " ++ tc_name tool_call ++ ": " ++ str_exn e)%string
                    (get_id tool_call "unknown")) results.
Proof.
  intros Hin Ht Hj Ho.
  destruct (reply_in_results prefix a tool_call Hin) as [results [Hc Hr]].
  destruct (format_tool_response_needs_an_object (tc_name tool_call) j Ho)
    as [e [He _]].
  exists results, e. split; [exact Hc|]. split; [exact He|].
  unfold reply, reply_content, error_msg in Hr. rewrite Ht, Hj, He in Hr.
  destruct (tc_id tool_call); exact Hr.
Qed.

(** A tool call whose dictionary has no ["id"] never gets its result: the
    message returned for it is an ["Error calling tool"] message under the
    id ["unknown"], and when the transport and the formatting did not fail
    the error is the [KeyError] of the missing key. *)
Theorem call_without_id_gets_no_result prefix a tool_call :
  In tool_call (tool_calls a) ->
  tc_id tool_call = None ->
  exists results e,
    call_tool C (prefix ++ [AI a]) = Return results /\
    In (ToolMessage ("Error calling tool " ++ tc_name tool_call ++ ": " ++ str_exn e)%string
                    "unknown") results /\
    (forall text,
        mcp_call_tool C ("math_tools." ++ tc_name tool_call)%string (tc_args tool_call)
        = Return text ->
        (forall j x, json_loads C text = Some j ->
                     format_tool_response C (tc_name tool_call) j <> Raise x) ->
        e = KeyError "'id'").
Proof.
  intros Hin Hid.
  destruct (reply_in_results prefix a tool_call Hin) as [results [Hc Hr]].
  unfold reply, reply_content, error_msg, get_id in Hr. rewrite Hid in Hr.
  destruct (mcp_call_tool C _ _) as [text|e] eqn:Ht.
  - destruct (json_loads C text) as [j|] eqn:Hj.
    + destruct (format_tool_response C (tc_name tool_call) j) as [s|x] eqn:Hf.
      * exists results, (KeyError "'id'"). repeat split; try assumption.
      * exists results, x. split; [exact Hc|]. split; [exact Hr|].
        intros text' Ht' Hno. injection Ht' as <-. now elim (Hno j x Hj).
    + exists results, (KeyError "'id'"). repeat split; assumption.
  - exists results, e. split; [exact Hc|]. split; [exact Hr|].
    intros text Ht'. discriminate Ht'.
Qed.

(** When the last message is not an assistant message, [call_tool] returns
    the empty update, and the step at the tool node leaves the state as it
    is and goes to the model node. *)
Theorem call_tool_without_request prefix m :
  is_ai m = false ->
  call_tool C (prefix ++ [m]) = Return [] /\
  workflow C (call_tool_node, prefix ++ [m])
  = Return (call_llm_node, prefix ++ [m]).
Proof.
  intros Hm.
  assert (Hc : call_tool C (prefix ++ [m]) = Return []).
  { unfold call_tool. rewrite last_item_snoc. cbn [bind].
    destruct m; try discriminate Hm; reflexivity. }
  split; [exact Hc|].
  unfold workflow, node_function. rewrite Hc. cbn [bind].
  unfold reducer. now rewrite app_nil_r.
Qed.

(** The step at the model node fails exactly when the model call fails,
    with the same exception: the label ["call_llm"], which the edge mapping
    lacks, is never returned after a model call. *)
Theorem model_step_fails_only_with_the_model state e :
  workflow C (call_llm_node, state) = Raise e <->
  llm_invoke C llm_with_tools (call_llm_messages state) = Raise e.
Proof.
  split.
  - intros H.
    destruct (llm_invoke C llm_with_tools (call_llm_messages state))
      as [response|x] eqn:Hllm.
    + rewrite (workflow_call_llm C state response Hllm) in H. discriminate H.
    + unfold workflow, node_function, call_llm in H. rewrite Hllm in H.
      cbn [bind] in H. now injection H as <-.
  - intros H. unfold workflow, node_function, call_llm. now rewrite H.
Qed.

(** On the empty message list the step at the tool node fails with
    [IndexError].  On a state whose last message gives each of its tool
    calls an id, the step returns whatever the tools did: it appends one
    message per call and goes to the model node, so no failure of the
    transport, of the decoding or of the formatting fails the step. *)
Theorem tool_step_outlives_tool_failures prefix m :
  forallb has_id (getattr_tool_calls m) = true ->
  workflow C (call_tool_node, []) = Raise (IndexError "list index out of range") /\
  exists update,
    call_tool C (prefix ++ [m]) = Return update /\
    List.length update = List.length (getattr_tool_calls m) /\
    workflow C (call_tool_node, prefix ++ [m])
    = Return (call_llm_node, (prefix ++ [m]) ++ update).
Proof.
  intros _. split; [reflexivity|].
  assert (Hc : call_tool C (prefix ++ [m])
               = Return (map (reply C) (getattr_tool_calls m))).
  { unfold call_tool. rewrite last_item_snoc. cbn [bind].
    now rewrite (proj1 (call_tool_loop_spec C (getattr_tool_calls m))). }
  exists (map (reply C) (getattr_tool_calls m)).
  split; [exact Hc|]. split; [apply length_map|].
  unfold workflow, node_function. rewrite Hc. reflexivity.
Qed.

End MoreGraphFacts.

Section ConversationFacts.
Import PyNum Graph Conversation.
Local Open Scope list_scope.
Variable C : collaborators.

(** The state of a run is its initial state followed by what the run
    appended: completed rounds (an assistant message with tool calls, then
    the replies to its calls in order), then at the tool node the assistant
    message being answered, and at [END] an assistant message without tool
    calls. *)
Theorem reachable_states_are_rounds init cfg :
  reachable C init cfg ->
  exists suffix, snd cfg = init ++ suffix /\ appended C (fst cfg) suffix.
Proof.
  intros Hr. induction Hr as [|[n state] [n' state'] Hr IH Hstep].
  - exists []. split; [now rewrite app_nil_r | reflexivity].
  - destruct IH as [suffix [Hs Ha]]. simpl in Hs, Ha. simpl. subst state.
    destruct n.
    + injection Hstep as <- <-. exists suffix.
      unfold reducer. rewrite app_nil_r. split; [reflexivity|].
      simpl in Ha. subst suffix. constructor.
    + destruct (llm_invoke C llm_with_tools (call_llm_messages (init ++ suffix)))
        as [response|e] eqn:Hllm.
      * rewrite (workflow_call_llm C _ response Hllm) in Hstep.
        injection Hstep as <- <-. exists (suffix ++ [AI response]).
        split; [now rewrite app_assoc|].
        destruct (tool_calls response) eqn:Hcalls; simpl;
          exists suffix, response; (split; [exact Ha|]);
          (split; [|reflexivity]); congruence.
      * unfold workflow, node_function, call_llm in Hstep.
        rewrite Hllm in Hstep. discriminate Hstep.
    + destruct Ha as [l [a [Hl [Hcalls ->]]]].
      rewrite app_assoc, workflow_call_tool in Hstep.
      injection Hstep as <- <-.
      exists (l ++ [AI a] ++ map (reply C) (tool_calls a)).
      split; [now rewrite <- !app_assoc|].
      simpl. now constructor.
    + injection Hstep as <- <-. exists suffix.
      unfold reducer. rewrite app_nil_r. split; [reflexivity|exact Ha].
Qed.

Lemma no_system_message_iff state :
  existsb is_system state = false <-> no_system_message state.
Proof.
  unfold no_system_message. rewrite Forall_forall. split.
  - intros H m Hm. destruct (is_system m) eqn:Hs; [|reflexivity].
    assert (existsb is_system state = true)
      by (apply existsb_exists; now exists m). congruence.
  - intros H. destruct (existsb is_system state) eqn:He; [|reflexivity].
    apply existsb_exists in He. destruct He as [m [Hm Hs]].
    rewrite (H m Hm) in Hs. discriminate.
Qed.

(** The messages [call_llm] hands to the model always contain a system
    message, end with the stored messages, have at most the prompt before
    them, and building them twice changes nothing. *)
Theorem model_input_always_has_a_system_message state :
  existsb is_system (call_llm_messages state) = true /\
  call_llm_messages (call_llm_messages state) = call_llm_messages state /\
  exists head,
    call_llm_messages state = head ++ state /\
    (head = [] \/ head = [SystemMessage MATH_SYSTEM_PROMPT]).
Proof.
  destruct (existsb is_system state) eqn:He.
  - rewrite !(supplied_prompt_is_kept state He).
    split; [exact He|]. split; [reflexivity|].
    exists []. split; [reflexivity|now left].
  - assert (Hp : call_llm_messages state = SystemMessage MATH_SYSTEM_PROMPT :: state)
      by (unfold call_llm_messages; now rewrite He).
    rewrite !Hp. split; [reflexivity|].
    split; [now apply supplied_prompt_is_kept|].
    exists [SystemMessage MATH_SYSTEM_PROMPT]. split; [reflexivity|now right].
Qed.

(** The prompt is prepended exactly when the stored messages have no
    system message at any position. *)
Theorem prompt_is_added_exactly_without_system_message state :
  call_llm_messages state = SystemMessage MATH_SYSTEM_PROMPT :: state <->
  existsb is_system state = false.
Proof.
  split.
  - intros H. destruct (existsb is_system state) eqn:He; [|reflexivity].
    rewrite (supplied_prompt_is_kept state He) in H.
    apply (f_equal (@List.length message)) in H. simpl in H. lia.
  - intros H. apply prompt_is_prepended. now apply no_system_message_iff.
Qed.

(** On a decoded object [format_tool_response] raises exactly when there
    is no ["error"] key and either the ["operation"] is not a string or the
    ["steps"] are a non-zero number or [True]. *)
Theorem format_tool_response_fails_exactly tool_name d :
  (exists e, format_tool_response C tool_name (JObj d) = Raise e) <->
  (mem "error" d = false /\
   (is_str (get "operation" (JStr "calculation") d) = false \/
    (truthy (get "steps" (JArr []) d) = true /\
     is_iterable (get "steps" (JArr []) d) = false))).
Proof.
  unfold format_tool_response.
  destruct (mem "error" d).
  - split; [intros [e H]; discriminate H | intros [H _]; discriminate H].
  - destruct (get "operation" (JStr "calculation") d) as [| | |op| |];
      try (split; [intros _; split; [reflexivity|left; reflexivity]
                  | intros _; eexists; reflexivity]).
    cbn [bind is_str].
    destruct (truthy (get "steps" (JArr []) d)) eqn:Ht.
    + destruct (get "steps" (JArr []) d) as [| | |st|l|o]; cbn [iterate bind is_iterable];
        try (split; [intros _; split; [reflexivity|right; split; reflexivity]
                    | intros _; eexists; reflexivity]);
        (split; [intros [e H]; destruct (shows_result _); discriminate H
                | intros [_ [H|[_ H]]]; discriminate H]).
    + cbn [bind]. split; [intros [e H]; destruct (shows_result _); discriminate H
                         | intros [_ [H|[H _]]]; discriminate H].
Qed.

End ConversationFacts.

(** ** [find_available_port] *)

Section GatewayFacts.
Import PyNum Gateway.
Variable bind : Z -> attempt.

Lemma try_ports_returned n : forall port p,
  try_ports bind n port = returned p <->
  (port <= p < port + Z.of_nat n /\ bind p = bound /\
   forall q, port <= q < p -> bind q = os_error).
Proof.
  induction n as [|n IH]; intros port p.
  - simpl. split; [discriminate|]. intros [H _]. lia.
  - cbn [try_ports]. destruct (bind port) eqn:Hb.
    + split.
      * intros H. injection H as <-. repeat split; [lia|lia|exact Hb|].
        intros q Hq. lia.
      * intros [Hr [Hp Hq]]. destruct (Z.eq_dec p port) as [->|Hne];
          [reflexivity|]. rewrite (Hq port) in Hb by lia. discriminate.
    + rewrite IH. split.
      * intros [Hr [Hp Hq]]. repeat split; [lia|lia|exact Hp|].
        intros q Hq'. destruct (Z.eq_dec q port) as [->|Hne]; [exact Hb|].
        apply Hq. lia.
      * intros [Hr [Hp Hq]].
        assert (p <> port) by (intros ->; rewrite Hp in Hb; discriminate).
        repeat split; [lia|lia|exact Hp|]. intros q Hq'. apply Hq. lia.
    + split; [discriminate|]. intros [Hr [Hp Hq]].
      destruct (Z.eq_dec p port) as [->|Hne]; [rewrite Hp in Hb; discriminate|].
      rewrite (Hq port) in Hb by lia. discriminate.
Qed.

Lemma try_ports_exhausted n : forall port,
  try_ports bind n port = exhausted <->
  forall q, port <= q < port + Z.of_nat n -> bind q = os_error.
Proof.
  induction n as [|n IH]; intros port.
  - simpl. split; [intros _ q Hq; lia|reflexivity].
  - cbn [try_ports]. destruct (bind port) eqn:Hb.
    + split; [discriminate|]. intros H. rewrite (H port) in Hb by lia.
      discriminate.
    + rewrite IH. split.
      * intros H q Hq. destruct (Z.eq_dec q port) as [->|Hne]; [exact Hb|].
        apply H. lia.
      * intros H q Hq. apply H. lia.
    + split; [discriminate|]. intros H. rewrite (H port) in Hb by lia.
      discriminate.
Qed.

Lemma try_ports_raised n : forall port e,
  try_ports bind n port = raised e <->
  exists p, port <= p < port + Z.of_nat n /\ bind p = other_error e /\
            forall q, port <= q < p -> bind q = os_error.
Proof.
  induction n as [|n IH]; intros port e.
  - simpl. split; [discriminate|]. intros [p [H _]]. lia.
  - cbn [try_ports]. destruct (bind port) eqn:Hb.
    + split; [discriminate|]. intros [p [Hr [Hp Hq]]].
      destruct (Z.eq_dec p port) as [->|Hne]; [rewrite Hp in Hb; discriminate|].
      rewrite (Hq port) in Hb by lia. discriminate.
    + rewrite IH. split.
      * intros [p [Hr [Hp Hq]]]. exists p. repeat split; [lia|lia|exact Hp|].
        intros q Hq'. destruct (Z.eq_dec q port) as [->|Hne]; [exact Hb|].
        apply Hq. lia.
      * intros [p [Hr [Hp Hq]]].
        assert (p <> port) by (intros ->; rewrite Hp in Hb; discriminate).
        exists p. repeat split; [lia|lia|exact Hp|]. intros q Hq'. apply Hq. lia.
    + split.
      * intros H. injection H as <-. exists port. repeat split; [lia|lia|exact Hb|].
        intros q Hq. lia.
      * intros [p [Hr [Hp Hq]]].
        destruct (Z.eq_dec p port) as [->|Hne]; [congruence|].
        rewrite (Hq port) in Hb by lia. discriminate.
Qed.

Lemma attempts_range start_port max_attempts q :
  start_port <= q < start_port + Z.of_nat (Z.to_nat max_attempts) <->
  start_port <= q < start_port + max_attempts.
Proof. lia. Qed.

(** [find_available_port] returns [port] exactly when [port] is in the
    range of the attempts, can be bound, and every port of the range before
    it raised [OSError]. *)
Theorem find_available_port_first_fit start_port max_attempts port :
  find_available_port bind start_port max_attempts = port_found port <->
  (start_port <= port < start_port + max_attempts /\
   bind port = bound /\
   forall q, start_port <= q < port -> bind q = os_error).
Proof.
  unfold find_available_port.
  rewrite <- attempts_range, <- try_ports_returned.
  destruct (try_ports bind _ start_port); split; congruence.
Qed.

(** [find_available_port] raises its [RuntimeError] exactly when every
    port of the range raised [OSError] (always, when [max_attempts] is not
    positive); the message names the range. *)
Theorem find_available_port_gives_up start_port max_attempts msg :
  find_available_port bind start_port max_attempts = runtime_error msg <->
  ((forall q, start_port <= q < start_port + max_attempts -> bind q = os_error) /\
   msg = "Could not find available port in range "
           ++ str_int start_port ++ "-" ++ str_int (start_port + max_attempts - 1)).
Proof.
  unfold find_available_port.
  assert (Hex : try_ports bind (Z.to_nat max_attempts) start_port = exhausted <->
                forall q, start_port <= q < start_port + max_attempts ->
                          bind q = os_error).
  { rewrite try_ports_exhausted. split; intros H q Hq; apply H; lia. }
  destruct (try_ports bind _ start_port) eqn:Ht.
  - split; [discriminate|]. intros [H _]. apply Hex in H. discriminate.
  - split; [discriminate|]. intros [H _]. apply Hex in H. discriminate.
  - split.
    + intros H. injection H as <-. split; [now apply Hex|reflexivity].
    + intros [_ ->]. reflexivity.
Qed.

(** An exception other than [OSError] leaves [find_available_port] exactly
    when it is raised for a port of the range before which every port raised
    [OSError]. *)
Theorem find_available_port_lets_other_errors_out start_port max_attempts e :
  find_available_port bind start_port max_attempts = uncaught e <->
  exists port,
    start_port <= port < start_port + max_attempts /\
    bind port = other_error e /\
    forall q, start_port <= q < port -> bind q = os_error.
Proof.
  unfold find_available_port.
  assert (Hr : try_ports bind (Z.to_nat max_attempts) start_port = raised e <->
               exists port,
                 start_port <= port < start_port + max_attempts /\
                 bind port = other_error e /\
                 forall q, start_port <= q < port -> bind q = os_error).
  { rewrite try_ports_raised. split; intros [p [H1 H2]]; exists p; (split; [lia|exact H2]). }
  rewrite <- Hr.
  destruct (try_ports bind _ start_port); split; congruence.
Qed.

End GatewayFacts.

(** ** The further statements at concrete inputs *)

Lemma solve_equation_ignores_spaces_witness :
  exists d1 d2,
    PyStr.remove_char " " "2x+3=7" = PyStr.remove_char " " " 2 x + 3 = 7 " /\
    MathTools.solve_equation MathTools.bare_runtime "2x+3=7" = Return d1 /\
    MathTools.solve_equation MathTools.bare_runtime " 2 x + 3 = 7 " = Return d2 /\
    MathTools.dict_get "result" d1 = MathTools.dict_get "result" d2 /\
    MathTools.dict_get "error" d1 = MathTools.dict_get "error" d2.
Proof.
  do 2 eexists. split; [reflexivity|]. split; [reflexivity|].
  split; [reflexivity|].
  apply (solve_equation_ignores_spaces MathTools.bare_runtime
           "2x+3=7" " 2 x + 3 = 7 "); reflexivity.
Defined.

Lemma variable_after_the_plus_is_rejected_witness :
  PyStr.split "=" (PyStr.remove_char " " "3 + x = 7") = ["3+x"; "7"] /\
  PyStr.split1 "+" "3+x" = ["3"; "x"] /\
  PyStr.contains_char "x" "3" = false /\
  PyStr.contains_char "x" "x" = true /\
  MathTools.solve_equation MathTools.bare_runtime "3 + x = 7"
  = Return (MathTools.solve_equation_error "3 + x = 7"
              (ValueError "could not convert string to float: 'x'")).
Proof.
  repeat (split; [reflexivity|]).
  apply (variable_after_the_plus_is_rejected MathTools.bare_runtime
           "3 + x = 7" "3+x" "7" "3" "x"); reflexivity.
Defined.

Lemma arithmetic_results_are_consistent_witness :
  exists d,
    Requests.is_arithmetic (MathTools.req_add (PyNum.PyInt 2) (PyNum.PyInt 3)) = true /\
    MathTools.mcp_math_server MathTools.bare_runtime
      (MathTools.req_add (PyNum.PyInt 2) (PyNum.PyInt 3)) = Return d /\
    MathTools.dict_mem "error" d = false /\
    MathTools.dict_get "steps" d
    = Some (MathTools.VList [ "Step 1: Add 2 and 3"; "2 + 3 = 5"; "Final result: 5" ]).
Proof.
  eexists. split; [reflexivity|]. split; [reflexivity|].
  destruct (arithmetic_results_are_consistent MathTools.bare_runtime
              (MathTools.req_add (PyNum.PyInt 2) (PyNum.PyInt 3)) _
              eq_refl eq_refl) as [Herr _].
  split; [exact Herr|reflexivity].
Defined.

Lemma square_root_result_is_not_negative_witness :
  exists d x,
    MathTools.square_root MathTools.bare_runtime (PyNum.PyInt 4) = Return d /\
    PyNum.to_float (PyNum.PyInt 4) = Return x /\
    SFltb (PyNum.fsqrt x) PyNum.fzero = false.
Proof.
  eexists.
  destruct (square_root_result_is_not_negative MathTools.bare_runtime
              (PyNum.PyInt 4) _ eq_refl) as [x [Hx [_ Hs]]].
  exists x. split; [reflexivity|]. split; assumption.
Defined.

Lemma divide_on_floats_checks_only_for_zero_witness :
  SFeqb (PyNum.float_of_Z 2) PyNum.fzero = false /\
  exists d,
    MathTools.divide MathTools.bare_runtime
      (PyNum.PyFloat (PyNum.float_of_Z 1)) (PyNum.PyFloat (PyNum.float_of_Z 2))
    = Return d /\
    MathTools.dict_get "result" d
    = Some (MathTools.VScalar (MathTools.SNum
              (PyNum.PyFloat (PyNum.fdiv (PyNum.float_of_Z 1) (PyNum.float_of_Z 2))))).
Proof.
  split; [reflexivity|].
  apply (divide_on_floats_checks_only_for_zero MathTools.bare_runtime). reflexivity.
Defined.

Lemma success_is_presented_in_full_witness :
  exists d j,
    MathTools.mcp_math_server MathTools.bare_runtime
      (MathTools.req_multiply (PyNum.PyInt 123) (PyNum.PyInt 456)) = Return d /\
    MathTools.dict_mem "error" d = false /\
    Transport.as_json d = Some j /\
    Graph.format_tool_response Graph.unregistered "multiply" j
    = Return (Transport.presentation "## Multiplication: 123 × 456"
                [ "Step 1: Multiply 123 by 456"; "123 × 456 = 56088";
                  "Final result: 56088" ]
                "56088").
Proof.
  do 2 eexists. split; [reflexivity|]. split; [reflexivity|].
  split; [reflexivity|].
  destruct (success_is_presented_in_full MathTools.bare_runtime Graph.unregistered
              (MathTools.req_multiply (PyNum.PyInt 123) (PyNum.PyInt 456)) _ _
              "multiply" eq_refl eq_refl eq_refl) as [steps [n [Hs [Hn Hf]]]].
  injection Hs as <-. injection Hn as <-. exact Hf.
Defined.

Lemma solve_equation_failure_hides_its_cause_witness :
  exists d j,
    MathTools.solve_equation MathTools.bare_runtime "2x - 3 = 7" = Return d /\
    MathTools.dict_mem "error" d = true /\
    Transport.as_json d = Some j /\
    Graph.format_tool_response Graph.unregistered "solve_equation" j
    = Return ("Error in solve_equation: " ++ MathTools.failure_message).
Proof.
  do 2 eexists. split; [reflexivity|]. split; [reflexivity|].
  split; [reflexivity|].
  eapply (solve_equation_failure_hides_its_cause MathTools.bare_runtime
            Graph.unregistered "2x - 3 = 7"); reflexivity.
Defined.

Lemma formatted_result_is_delivered_witness :
  exists results,
    In (Conversation.sample_call "add" (Some "call_1"))
       (Graph.tool_calls (Conversation.sample_request "add" (Some "call_1"))) /\
    Graph.mcp_call_tool Conversation.sample_server "math_tools.add" (Graph.JObj [])
    = Return "{}" /\
    Graph.json_loads Conversation.sample_server "{}" = Some (Graph.JObj []) /\
    Graph.format_tool_response Conversation.sample_server "add" (Graph.JObj [])
    = Return "## Calculation: " /\
    Graph.call_tool Conversation.sample_server
      (Graph.question ++ [Graph.AI (Conversation.sample_request "add" (Some "call_1"))])%list
    = Return results /\
    In (Graph.ToolMessage "## Calculation: " "call_1") results.
Proof.
  assert (Hin : In (Conversation.sample_call "add" (Some "call_1"))
                   (Graph.tool_calls (Conversation.sample_request "add" (Some "call_1"))))
    by (left; reflexivity).
  destruct (formatted_result_is_delivered Conversation.sample_server Graph.question
              (Conversation.sample_request "add" (Some "call_1"))
              (Conversation.sample_call "add" (Some "call_1"))
              "{}" (Graph.JObj []) "## Calculation: " "call_1"
              Hin eq_refl eq_refl eq_refl eq_refl) as [results [Hc Hr]].
  exists results. repeat (split; [first [exact Hin|reflexivity|exact Hc]|]).
  exact Hr.
Defined.

Lemma unparsable_text_is_passed_on_witness :
  exists results,
    Graph.mcp_call_tool Conversation.sample_server "math_tools.multiply" (Graph.JObj [])
    = Return "out of service" /\
    Graph.json_loads Conversation.sample_server "out of service" = None /\
    Graph.call_tool Conversation.sample_server
      (Graph.question
         ++ [Graph.AI (Conversation.sample_request "multiply" (Some "call_1"))])%list
    = Return results /\
    In (Graph.ToolMessage "Tool response could not be parsed: out of service" "call_1")
       results.
Proof.
  destruct (unparsable_text_is_passed_on Conversation.sample_server Graph.question
              (Conversation.sample_request "multiply" (Some "call_1"))
              (Conversation.sample_call "multiply" (Some "call_1"))
              "out of service" "call_1"
              (or_introl eq_refl) eq_refl eq_refl eq_refl) as [results [Hc Hr]].
  exists results. split; [reflexivity|]. split; [reflexivity|].
  split; [exact Hc|exact Hr].
Defined.

Lemma decoded_non_object_is_reported_witness :
  exists results,
    Graph.mcp_call_tool Conversation.sample_server "math_tools.subtract" (Graph.JObj [])
    = Return "5" /\
    Graph.json_loads Conversation.sample_server "5" = Some (Graph.JNum (PyNum.PyInt 5)) /\
    Conversation.is_object (Graph.JNum (PyNum.PyInt 5)) = false /\
    Graph.call_tool Conversation.sample_server
      (Graph.question
         ++ [Graph.AI (Conversation.sample_request "subtract" (Some "call_1"))])%list
    = Return results /\
    In (Graph.ToolMessage
          "Error calling tool subtract: argument of type 'int' is not iterable"
          "call_1") results.
Proof.
  destruct (decoded_non_object_is_reported Conversation.sample_server Graph.question
              (Conversation.sample_request "subtract" (Some "call_1"))
              (Conversation.sample_call "subtract" (Some "call_1"))
              "5" (Graph.JNum (PyNum.PyInt 5))
              (or_introl eq_refl) eq_refl eq_refl eq_refl)
    as [results [e [Hc [He Hr]]]].
  exists results. repeat (split; [first [reflexivity|exact Hc]|]).
  simpl in He. injection He as <-. exact Hr.
Defined.

Lemma call_without_id_gets_no_result_witness :
  exists results e,
    In (Conversation.sample_call "add" None)
       (Graph.tool_calls (Conversation.sample_request "add" None)) /\
    Graph.tc_id (Conversation.sample_call "add" None) = None /\
    Graph.call_tool Conversation.sample_server
      (Graph.question ++ [Graph.AI (Conversation.sample_request "add" None)])%list
    = Return results /\
    In (Graph.ToolMessage ("Error calling tool add: " ++ str_exn e) "unknown") results.
Proof.
  destruct (call_without_id_gets_no_result Conversation.sample_server Graph.question
              (Conversation.sample_request "add" None)
              (Conversation.sample_call "add" None)
              (or_introl eq_refl) eq_refl) as [results [e [Hc [Hr _]]]].
  exists results, e. split; [left; reflexivity|]. split; [reflexivity|].
  split; [exact Hc|exact Hr].
Defined.

Lemma call_tool_without_request_witness :
  Conversation.is_ai (Graph.HumanMessage "What is 2 + 2?") = false /\
  Graph.call_tool Graph.unregistered ([] ++ [Graph.HumanMessage "What is 2 + 2?"])%list
  = Return [].
Proof.
  split; [reflexivity|].
  apply (call_tool_without_request Graph.unregistered []
           (Graph.HumanMessage "What is 2 + 2?")). reflexivity.
Defined.

Lemma reachable_states_are_rounds_witness :
  Graph.reachable Graph.unregistered Graph.question
    (Graph.END, (Graph.question ++ [Graph.AI Graph.final_answer])%list) /\
  exists suffix,
    (Graph.question ++ [Graph.AI Graph.final_answer])%list
    = (Graph.question ++ suffix)%list /\
    Conversation.appended Graph.unregistered Graph.END suffix.
Proof.
  assert (Hreach : Graph.reachable Graph.unregistered Graph.question
                     (Graph.END, (Graph.question ++ [Graph.AI Graph.final_answer])%list)).
  { apply Graph.reachable_step with (cfg := (Graph.call_llm_node, Graph.question));
      [|reflexivity].
    apply Graph.reachable_step with (cfg := (Graph.START, Graph.question));
      [apply Graph.reachable_start | reflexivity]. }
  split; [exact Hreach|].
  exact (reachable_states_are_rounds Graph.unregistered Graph.question _ Hreach).
Defined.

Lemma run_ends_on_a_final_answer_witness :
  Graph.START <> Graph.END /\
  Graph.test_agent_graph Graph.unregistered 25 (Graph.START, Graph.question)
  = Return (Graph.END, (Graph.question ++ [Graph.AI Graph.final_answer])%list) /\
  Graph.ends_with_final_answer (Graph.question ++ [Graph.AI Graph.final_answer])%list.
Proof.
  assert (Hn : Graph.START <> Graph.END) by discriminate.
  split; [exact Hn|]. split; [reflexivity|].
  exact (proj2 (run_ends_on_a_final_answer Graph.unregistered 25 Graph.START
                  Graph.question _ Hn eq_refl)).
Defined.

Lemma find_available_port_first_fit_witness :
  8080 <= 8083 < 8080 + 10 /\
  Gateway.taken_below 8083 8083 = Gateway.bound /\
  Gateway.find_available_port (Gateway.taken_below 8083) 8080 10
  = Gateway.port_found 8083.
Proof.
  split; [lia|]. split; [reflexivity|].
  apply (proj2 (find_available_port_first_fit (Gateway.taken_below 8083) 8080 10 8083)).
  split; [lia|]. split; [reflexivity|].
  intros q Hq. unfold Gateway.taken_below.
  destruct (q <? 8083) eqn:Hlt; [reflexivity|].
  apply Z.ltb_ge in Hlt. lia.
Defined.

Lemma find_available_port_gives_up_witness :
  Gateway.find_available_port (Gateway.taken_below 9000) 8080 10
  = Gateway.runtime_error "Could not find available port in range 8080-8089".
Proof.
  apply (proj2 (find_available_port_gives_up (Gateway.taken_below 9000) 8080 10 _)).
  split; [|reflexivity].
  intros q Hq. unfold Gateway.taken_below.
  destruct (q <? 9000) eqn:Hlt; [reflexivity|].
  apply Z.ltb_ge in Hlt. lia.
Defined.

Lemma solve_equation_solves_exactly_the_accepted_form_witness :
  PyStr.is_ascii "2x + 3 = 7" = true /\
  MathTools.accepted_form "2x + 3 = 7"
    (PyNum.float_of_Z 2) (PyNum.float_of_Z 3) (PyNum.float_of_Z 7) /\
  exists d,
    MathTools.solve_equation MathTools.bare_runtime "2x + 3 = 7" = Return d /\
    MathTools.dict_mem "error" d = false /\
    MathTools.dict_get "result" d
    = Some (MathTools.VScalar (MathTools.SNum (PyNum.PyFloat
              (PyNum.fdiv (PyNum.fsub (PyNum.float_of_Z 7) (PyNum.float_of_Z 3))
                          (PyNum.float_of_Z 2))))).
Proof.
  assert (Hform : MathTools.accepted_form "2x + 3 = 7"
                    (PyNum.float_of_Z 2) (PyNum.float_of_Z 3) (PyNum.float_of_Z 7)).
  { exists "2x", "3", "7".
    repeat (split; [vm_compute; reflexivity|]). vm_compute; reflexivity. }
  split; [reflexivity|]. split; [exact Hform|].
  apply (proj2 (solve_equation_solves_exactly_the_accepted_form
                  MathTools.bare_runtime "2x + 3 = 7" _ eq_refl)).
  exists (PyNum.float_of_Z 2), (PyNum.float_of_Z 3), (PyNum.float_of_Z 7).
  split; [exact Hform|]. split; reflexivity.
Defined.

Lemma tool_step_outlives_tool_failures_witness :
  forallb Conversation.has_id
    (Graph.getattr_tool_calls
       (Graph.AI (Conversation.sample_request "multiply" (Some "call_1")))) = true /\
  Graph.workflow Conversation.sample_server (Graph.call_tool_node, [])
  = Raise (IndexError "list index out of range") /\
  exists update,
    Graph.call_tool Conversation.sample_server
      (Graph.question
         ++ [Graph.AI (Conversation.sample_request "multiply" (Some "call_1"))])%list
    = Return update /\
    List.length update = 1%nat /\
    Graph.workflow Conversation.sample_server
      (Graph.call_tool_node,
       (Graph.question
          ++ [Graph.AI (Conversation.sample_request "multiply" (Some "call_1"))])%list)
    = Return (Graph.call_llm_node,
              ((Graph.question
                  ++ [Graph.AI (Conversation.sample_request "multiply" (Some "call_1"))])
                 ++ update)%list).
Proof.
  split; [reflexivity|].
  exact (tool_step_outlives_tool_failures Conversation.sample_server Graph.question
           (Graph.AI (Conversation.sample_request "multiply" (Some "call_1")))
           eq_refl).
Defined.
